(** * The question-to-SQL chatbot pipeline of [bot_logic.py]

    A shallow embedding of the text pipeline ([handle_query] and the
    functions it sequences), of the greeting check, of [format_response]
    and of the three-step waterfall dialog that drives them.

    Python [str] values are modelled as [string], and the texts the
    model speaks about are texts of ASCII characters: [upper], [lower]
    and [strip] below are Python's on such texts.  On a character above
    127 they do nothing, where Python's case mapping and whitespace go
    further; statements whose truth depends on it carry the hypothesis
    [is_ascii].  The language model, the database and the chat
    transport are external services; they are a record of oracles
    ([Backend]) and every call to one of them is recorded in a trace of
    events. *)

From Stdlib Require Import String Ascii List Bool Arith Lia.
Import ListNotations.
Open Scope string_scope.

(** ** Python string operations *)

Module PyStr.

(** [c.upper()] and [c.lower()] on one ASCII character. *)
Definition upper_char (c : ascii) : ascii :=
  let n := nat_of_ascii c in
  if ((97 <=? n) && (n <=? 122))%nat then ascii_of_nat (n - 32) else c.

Definition lower_char (c : ascii) : ascii :=
  let n := nat_of_ascii c in
  if ((65 <=? n) && (n <=? 90))%nat then ascii_of_nat (n + 32) else c.

Fixpoint map_chars (f : ascii -> ascii) (s : string) : string :=
  match s with
  | EmptyString => EmptyString
  | String c s' => String (f c) (map_chars f s')
  end.

Definition upper : string -> string := map_chars upper_char.
Definition lower : string -> string := map_chars lower_char.

(** [c.isspace()] for a character below 128: tab, line feed, vertical
    tab, form feed, carriage return, the four separators 28..31 and
    the space. *)
Definition is_space (c : ascii) : bool :=
  let n := nat_of_ascii c in
  (((9 <=? n) && (n <=? 13)) || ((28 <=? n) && (n <=? 32)))%nat.

Fixpoint lstrip (s : string) : string :=
  match s with
  | EmptyString => EmptyString
  | String c s' => if is_space c then lstrip s' else s
  end.

Fixpoint rstrip (s : string) : string :=
  match s with
  | EmptyString => EmptyString
  | String c s' =>
      match rstrip s' with
      | EmptyString => if is_space c then EmptyString else String c EmptyString
      | r => String c r
      end
  end.

(** [s.strip()] *)
Definition strip (s : string) : string := rstrip (lstrip s).

(** [s.startswith(p)] *)
Fixpoint startswith (s p : string) {struct p} : bool :=
  match p, s with
  | EmptyString, _ => true
  | String _ _, EmptyString => false
  | String a p', String b s' => Ascii.eqb a b && startswith s' p'
  end.

(** [sub in s] *)
Fixpoint contains (sub s : string) : bool :=
  startswith s sub ||
  match s with
  | EmptyString => false
  | String _ s' => contains sub s'
  end.

(** [s.replace(old, new)] for a non-empty [old]: a left-to-right scan;
    where [old] starts, [new] is emitted and the scan resumes after the
    occurrence.  [skip] counts the characters of a matched occurrence
    still to be passed over. *)
Fixpoint replace_scan (old new : string) (skip : nat) (s : string) : string :=
  match s with
  | EmptyString => EmptyString
  | String c s' =>
      match skip with
      | S k => replace_scan old new k s'
      | O =>
          if startswith s old
          then new ++ replace_scan old new (String.length old - 1) s'
          else String c (replace_scan old new 0 s')
      end
  end.

(** With an empty [old], Python puts [new] before every character and
    at the end. *)
Fixpoint intersperse (new s : string) : string :=
  match s with
  | EmptyString => new
  | String c s' => new ++ String c (intersperse new s')
  end.

Definition replace (s old new : string) : string :=
  match old with
  | EmptyString => intersperse new s
  | String _ _ => replace_scan old new 0 s
  end.

(** [sep.join(parts)] *)
Fixpoint join (sep : string) (parts : list string) : string :=
  match parts with
  | [] => EmptyString
  | [p] => p
  | p :: rest => p ++ sep ++ join sep rest
  end.

(** Truthiness of a [str]: the empty string is falsy. *)
Definition truthy (s : string) : bool :=
  match s with
  | EmptyString => false
  | String _ _ => true
  end.

(** [x in xs] for a list of strings. *)
Definition mem (x : string) (xs : list string) : bool :=
  existsb (String.eqb x) xs.

(** The text [sub] occurs in [s]; and occurs in it up to the case of
    its letters. *)
Definition occurs (sub s : string) : Prop :=
  exists pre post, s = pre ++ sub ++ post.

Definition occurs_ignoring_case (sub s : string) : Prop :=
  exists pre w post, s = pre ++ w ++ post /\ upper w = upper sub.

End PyStr.

(** ** Effects: a trace of external calls, and Python exceptions *)

(** The exceptions a stage can raise, by the two classes [handle_query]
    tells apart: [ValueError] (and its subclasses) and every other
    subclass of [Exception].  Each carries its message, [str(e)].
    Signals outside [Exception], such as [KeyboardInterrupt], are not
    faults of a stage and are not modelled. *)
Inductive exn : Type :=
| ValueError (msg : string)
| OtherException (msg : string).

Inductive outcome (A : Type) : Type :=
| Return (a : A)
| Raise (e : exn).
Arguments Return {A} a.
Arguments Raise {A} e.

(** A query result: named columns, each with its cells in row order. *)
Definition DataFrame : Type := list (string * list string).

(** The handle [SQLDatabase.from_uri] returns. *)
Inductive SQLDatabase : Type :=
| SQLDatabase_of_uri (uri : string).

Inductive step_id : Type := IntroStep | ActStep | FinalStep.

(** One entry per call that leaves the process, in program order. *)
Inductive event : Type :=
| LogInfo (msg : string)
| LogError (msg : string)
| CreateDatabaseConnection (uri : string)
| LlmInvoke (prompt : string)
| GetColumns (table : string)
| ReadSql (query : string)
| SendActivity (text : option string)
| RunStep (s : step_id).

(** The external services.  Each oracle gives what the call returns or
    raises for its argument. *)
Record Backend : Type := {
  llm_invoke : string -> outcome string;
  from_uri : string -> outcome SQLDatabase;
  get_columns : string -> outcome (list string);
  read_sql : string -> outcome DataFrame;
  read_json : string -> outcome DataFrame;
  to_string : DataFrame -> string;
  to_dict : DataFrame -> string;
  send_activity : option string -> outcome unit
}.

(** A computation: the events it produced, and how it ended. *)
Definition M (A : Type) : Type := list event * outcome A.

Definition ret {A} (a : A) : M A := ([], Return a).

Definition raise {A} (e : exn) : M A := ([], Raise e).

Definition bind {A B} (m : M A) (k : A -> M B) : M B :=
  match m with
  | (t, Return a) => let (t', r) := k a in ((t ++ t')%list, r)
  | (t, Raise e) => (t, Raise e)
  end.

(** An external call: recorded, then answered by the oracle. *)
Definition call {A} (ev : event) (r : outcome A) : M A := ([ev], r).

Definition emit (ev : event) : M unit := ([ev], Return tt).

Definition lift {A} (r : outcome A) : M A := ([], r).

(** [try: m  except ... as e: handler e] *)
Definition try_except {A} (m : M A) (handler : exn -> M A) : M A :=
  match m with
  | (t, Return a) => (t, Return a)
  | (t, Raise e) => let (t', r) := handler e in ((t ++ t')%list, r)
  end.

Declare Scope monad_scope.
Delimit Scope monad_scope with monad.
Notation "x <- c1 ;; c2" := (bind c1 (fun x => c2))
  (at level 61, c1 at next level, right associativity) : monad_scope.
Notation "c1 ;; c2" := (bind c1 (fun _ => c2))
  (at level 61, right associativity) : monad_scope.
Open Scope monad_scope.

Definition trace {A} (m : M A) : list event := fst m.
Definition result {A} (m : M A) : outcome A := snd m.

(** ** Counting calls in a trace *)

Definition is_llm_call (ev : event) : bool :=
  match ev with LlmInvoke _ => true | _ => false end.
Definition is_introspection (ev : event) : bool :=
  match ev with GetColumns _ => true | _ => false end.
Definition is_execution (ev : event) : bool :=
  match ev with ReadSql _ => true | _ => false end.
Definition is_connection (ev : event) : bool :=
  match ev with CreateDatabaseConnection _ => true | _ => false end.
Definition is_database_call (ev : event) : bool :=
  is_connection ev || is_introspection ev || is_execution ev.
Definition is_send (ev : event) : bool :=
  match ev with SendActivity _ => true | _ => false end.

Definition count (p : event -> bool) (t : list event) : nat :=
  List.length (filter p t).

(** ** Constants of [bot_logic.py] *)

Definition nl : string := String (ascii_of_nat 10) EmptyString.
Definition dquote : string := String (ascii_of_nat 34) EmptyString.

Definition POSTGRES_HOST : string := "localhost".
Definition POSTGRES_PORT : string := "5432".
Definition POSTGRES_DB : string := "postgres".
Definition POSTGRES_USER : string := "admin".
Definition POSTGRES_PASSWORD : string := "admin".
Definition DATABASE_URL : string :=
  "postgresql://" ++ POSTGRES_USER ++ ":" ++ POSTGRES_PASSWORD ++ "@"
    ++ POSTGRES_HOST ++ ":" ++ POSTGRES_PORT ++ "/" ++ POSTGRES_DB.
Definition TABLE_NAME : string := "employees".

Definition greetings : list string :=
  ["hi"; "hello"; "hey"; "good morning"; "good afternoon"; "good evening"].

Definition GREETING_RESPONSE : string :=
  "Hello! How can I assist you with the employees database today?".
Definition SQL_ISSUE_MESSAGE : string :=
  "There was an issue with generating a valid SQL query. Please revise your question or contact support.".
Definition FAILED_MESSAGE : string :=
  "Failed to process your question. Please try again.".
Definition INVALID_SQL_ERROR : string :=
  "Generated SQL is not valid. Please check the AI's response.".
Definition TURN_ERROR_MESSAGE : string :=
  "Sorry, it looks like something went wrong.".

(** ** Python dictionaries, as insertion-ordered association lists *)

Fixpoint dict_set (k v : string) (d : list (string * string)) : list (string * string) :=
  match d with
  | [] => [(k, v)]
  | (k', v') :: d' =>
      if String.eqb k k' then (k', v) :: d' else (k', v') :: dict_set k v d'
  end.

(** [{col: f(col) for col in cols}] *)
Definition dict_comprehension (f : string -> string) (cols : list string)
  : list (string * string) :=
  fold_left (fun d col => dict_set col (f col) d) cols [].

(** An item of the dictionary [{col: f(col) for col in cols}]. *)
Definition dict_entry (f : string -> string) (c : string) : string * string :=
  (c, f c).

Definition absent_from (l : list string) (x : string) : bool :=
  negb (PyStr.mem x l).

Definition differs_from (c x : string) : bool := negb (String.eqb x c).

(** The distinct elements of a list, each at its first position. *)
Fixpoint first_occurrences (xs : list string) : list string :=
  match xs with
  | [] => []
  | x :: rest => x :: filter (fun y => negb (String.eqb y x)) (first_occurrences rest)
  end.

(** The statement with the columns quoted one after the other: each
    column name, in the order given, is replaced throughout by its
    double-quoted form. *)
Definition quote_in_order (cols : list string) (sql : string) : string :=
  fold_left
    (fun q col => PyStr.replace q col (String "034"%char (col ++ String "034"%char EmptyString)))
    cols sql.

(** ** The pipeline of [bot_logic.py] *)

Section Pipeline.

Context (B : Backend).

Definition log_info (msg : string) : M unit := emit (LogInfo msg).
Definition log_error (msg : string) : M unit := emit (LogError msg).

Definition create_database_connection : M SQLDatabase :=
  log_info "Creating database connection" ;;
  call (CreateDatabaseConnection DATABASE_URL) (from_uri B DATABASE_URL).

Definition strip_markup (response : string) : string :=
  PyStr.replace
    (PyStr.replace (PyStr.replace response "<br>" nl) "<p>" EmptyString)
    "</p>" EmptyString.

Definition format_response (response : string) : outcome string :=
  if PyStr.startswith (PyStr.strip response) "["
  then
    match read_json B response with
    | Return df => Return (to_string B df)
    | Raise (ValueError _) => Return (strip_markup response)
    | Raise e => Raise e
    end
  else Return (strip_markup response).

Definition is_greeting (user_input : string) : bool :=
  PyStr.mem (PyStr.strip (PyStr.lower user_input)) greetings.

Definition elaborate_prompt (user_question : string) : string :=
  "Understand the user's actual requirements from the user questions and elaborate in detail using pre-trained knowledge, contextual understanding, and any other available information:"
    ++ nl ++ nl ++ user_question.

Definition elaborate_user_input (user_question : string) (db : SQLDatabase)
  : M string :=
  let prompt := elaborate_prompt user_question in
  response <- call (LlmInvoke prompt) (llm_invoke B prompt) ;;
  ret (PyStr.strip response).

Definition sql_prompt (columns : list string) (response : string) : string :=
  "You are an agent designed to interact with a SQL database. Create a syntactically correct SQL query to run for the '"
    ++ TABLE_NAME ++ "' table using these columns: "
    ++ PyStr.join ", " columns
    ++ " based on the following response: " ++ response
    ++ ". Only return the SQL query itself.".

(** The check of line 102. *)
Definition sql_is_valid (sql_query : string) : bool :=
  PyStr.contains "SELECT" (PyStr.upper sql_query)
  && PyStr.contains TABLE_NAME sql_query.

Definition quoted (col : string) : string := dquote ++ col ++ dquote.

(** The loop of lines 104-105 over [column_mapping.items()]. *)
Definition quote_columns (column_mapping : list (string * string))
           (sql_query : string) : string :=
  fold_left
    (fun q (item : string * string) => PyStr.replace q (fst item) (snd item))
    column_mapping sql_query.

Definition create_sql_query_from_response (response : string) (db : SQLDatabase)
  : M string :=
  columns <- call (GetColumns TABLE_NAME) (get_columns B TABLE_NAME) ;;
  let prompt := sql_prompt columns response in
  query_response <- call (LlmInvoke prompt) (llm_invoke B prompt) ;;
  let sql_query := PyStr.strip query_response in
  if sql_is_valid sql_query
  then
    let column_mapping := dict_comprehension quoted columns in
    ret (quote_columns column_mapping sql_query)
  else
    log_error ("Invalid SQL generated: " ++ sql_query) ;;
    raise (ValueError INVALID_SQL_ERROR).

Definition execute_sql_query (query : string) (db : SQLDatabase) : M DataFrame :=
  call (ReadSql query) (read_sql B query).

Definition final_prompt (user_question : string) (result : DataFrame) : string :=
  "You are a chatbot. Based on the user question and retrieved data, prepare a summarised and accurate response. Do ask the user if they have follow-up questions."
    ++ nl ++ nl ++ "User Question: " ++ user_question
    ++ nl ++ nl ++ "Retrieved Data:" ++ nl ++ to_dict B result.

Definition prepare_final_response (user_question : string) (result : DataFrame)
  : M string :=
  let prompt := final_prompt user_question result in
  response <- call (LlmInvoke prompt) (llm_invoke B prompt) ;;
  ret (PyStr.strip response).

(** The body of the [try] block of [handle_query]. *)
Definition pipeline (user_question : string) (db : SQLDatabase) : M (option string) :=
  detailed_prompt <- elaborate_user_input user_question db ;;
  sql_query <- create_sql_query_from_response detailed_prompt db ;;
  log_info ("Generated SQL Query: " ++ sql_query) ;;
  result <- execute_sql_query sql_query db ;;
  prepared_response <- prepare_final_response user_question result ;;
  formatted_response <- lift (format_response prepared_response) ;;
  ret (Some formatted_response).

Definition on_exception (e : exn) : M (option string) :=
  match e with
  | ValueError ve =>
      log_error ("SQL Error: " ++ ve) ;;
      ret (Some SQL_ISSUE_MESSAGE)
  | OtherException msg =>
      log_error ("Error processing question: " ++ msg) ;;
      ret (Some FAILED_MESSAGE)
  end.

(** [None] is Python's [None]: the function falls off its end when the
    question is falsy. *)
Definition handle_query (user_question : string) (db : SQLDatabase)
  : M (option string) :=
  if PyStr.truthy user_question
  then try_except (pipeline user_question db) on_exception
  else ret None.

(** *** The waterfall steps of [MyBot] *)

(** How a step hands control back: [step_context.end_dialog()] or
    [step_context.next(result)], both called in return position. *)
Inductive step_return : Type :=
| EndDialog
| Next (result : option string).

(** What a step reads from its context: the text of the inbound
    activity and the result passed to the step. *)
Record WaterfallStepContext : Type := {
  activity_text : string;
  step_result : option string
}.

Definition intro_step (step_context : WaterfallStepContext) : M step_return :=
  let user_question := activity_text step_context in
  log_info ("Intro step user question: " ++ user_question) ;;
  db <- create_database_connection ;;
  response <-
    (if is_greeting user_question
     then ret (Some GREETING_RESPONSE)
     else handle_query user_question db) ;;
  call (SendActivity response) (send_activity B response) ;;
  ret EndDialog.

(** [str(x)] of an optional string inside an f-string. *)
Definition str_of_option (x : option string) : string :=
  match x with
  | Some s => s
  | None => "None"
  end.

Definition act_step (step_context : WaterfallStepContext) : M step_return :=
  let user_question := step_result step_context in
  log_info ("Act step user question: " ++ str_of_option user_question) ;;
  db <- create_database_connection ;;
  response <-
    (match user_question with
     | Some q => handle_query q db
     | None => ret None
     end) ;;
  call (SendActivity response) (send_activity B response) ;;
  ret (Next None).

Definition final_step (step_context : WaterfallStepContext) : M step_return :=
  ret EndDialog.

Definition run_step_fn (s : step_id) : WaterfallStepContext -> M step_return :=
  match s with
  | IntroStep => intro_step
  | ActStep => act_step
  | FinalStep => final_step
  end.

(** The steps given to [WaterfallDialog("mainDialog", ...)]. *)
Definition mainDialog : list step_id := [IntroStep; ActStep; FinalStep].

(** The waterfall runner of the dialog library: run the steps from the
    head of [remaining]; [Next] runs the following step with the given
    result, [EndDialog] or running past the last step ends the dialog. *)
Fixpoint run_steps (remaining : list step_id) (text : string)
         (res : option string) : M unit :=
  match remaining with
  | [] => ret tt
  | s :: rest =>
      emit (RunStep s) ;;
      r <- run_step_fn s {| activity_text := text; step_result := res |} ;;
      match r with
      | EndDialog => ret tt
      | Next res' => run_steps rest text res'
      end
  end.

(** The dialog stack kept in the conversation state: the index of the
    step each active waterfall instance last ran. *)
Definition dialog_stack : Type := list nat.

(** [on_message_activity]: [continue_dialog] resumes the active dialog
    at its next step with the inbound text as result; with an empty
    stack it reports [Empty] and [begin_dialog] starts the waterfall at
    its first step.  Every step of [MyBot] hands control back by ending
    the dialog or by running the next step, so when the runner returns
    the instance has been popped; the stack returned is the one
    [save_changes] stores. *)
Definition on_message_activity (text : string) (stack : dialog_stack)
  : M dialog_stack :=
  match stack with
  | i :: rest =>
      run_steps (skipn (S i) mainDialog) text (Some text) ;;
      ret rest
  | [] =>
      run_steps mainDialog text None ;;
      ret []
  end.

End Pipeline.

(** The adapter of [main.py] over a conversation: each inbound message
    is one turn with its own backend.  A turn that raises never reaches
    [save_changes], so the stored stack is the one it started from;
    [on_error] tells the user and re-raises. *)
Fixpoint run_turns (turns : list (Backend * string)) (stack : dialog_stack)
  : list event * dialog_stack :=
  match turns with
  | [] => ([], stack)
  | (B, text) :: rest =>
      match on_message_activity B text stack with
      | (t, Return stack') =>
          let (t', s) := run_turns rest stack' in ((t ++ t')%list, s)
      | (t, Raise _) =>
          let (t', s) := run_turns rest stack in
          ((t ++ SendActivity (Some TURN_ERROR_MESSAGE) :: t')%list, s)
      end
  end.

(** ** The paths of the pipeline

    Two segments of the pipeline written out by cases on what the
    services answer; the unfolding lemmas below show them equal to the
    monadic code above. *)

Section Paths.

Context (B : Backend).

(** What [create_sql_query_from_response] does once the columns and
    the model's statement are known. *)
Definition validate_and_quote (cols : list string) (stmt : string) : M string :=
  let sql_query := PyStr.strip stmt in
  if sql_is_valid sql_query
  then ([], Return (quote_columns (dict_comprehension quoted cols) sql_query))
  else ([LogError ("Invalid SQL generated: " ++ sql_query)],
        Raise (ValueError INVALID_SQL_ERROR)).

(** The tail of the pipeline, from the execution on. *)
Definition execute_and_summarize (q sql : string) : M (option string) :=
  match read_sql B sql with
  | Raise e => ([ReadSql sql], Raise e)
  | Return df =>
      let p := final_prompt B q df in
      match llm_invoke B p with
      | Raise e => ([ReadSql sql; LlmInvoke p], Raise e)
      | Return r =>
          match format_response B (PyStr.strip r) with
          | Return f => ([ReadSql sql; LlmInvoke p], Return (Some f))
          | Raise e => ([ReadSql sql; LlmInvoke p], Raise e)
          end
      end
  end.

(** The validation of a statement is reached and rejects it. *)
Definition validation_rejects (q : string) : bool :=
  match llm_invoke B (elaborate_prompt q) with
  | Return d =>
      match get_columns B TABLE_NAME with
      | Return cols =>
          match llm_invoke B (sql_prompt cols (PyStr.strip d)) with
          | Return stmt => negb (sql_is_valid (PyStr.strip stmt))
          | Raise _ => false
          end
      | Raise _ => false
      end
  | Raise _ => false
  end.

End Paths.

(** What the two [except] clauses of [handle_query] return and log for
    an exception. *)
Definition message_for (e : exn) : string :=
  match e with
  | ValueError _ => SQL_ISSUE_MESSAGE
  | OtherException _ => FAILED_MESSAGE
  end.

Definition log_for (e : exn) : event :=
  match e with
  | ValueError ve => LogError ("SQL Error: " ++ ve)
  | OtherException msg => LogError ("Error processing question: " ++ msg)
  end.

(** The events of [intro_step] up to the greeting check. *)
Definition intro_prefix (text : string) : list event :=
  [LogInfo ("Intro step user question: " ++ text);
   LogInfo "Creating database connection";
   CreateDatabaseConnection DATABASE_URL].

(** The events [handle_query] can produce: model calls, the two database
    calls and log lines. *)
Definition is_pipeline_event (ev : event) : bool :=
  match ev with
  | LlmInvoke _ | GetColumns _ | ReadSql _ | LogInfo _ | LogError _ => true
  | _ => false
  end.

Definition runs_step (s : step_id) (ev : event) : bool :=
  match ev, s with
  | RunStep IntroStep, IntroStep => true
  | RunStep ActStep, ActStep => true
  | RunStep FinalStep, FinalStep => true
  | _, _ => false
  end.

(** ** Marked-up text

    A text made of plain pieces and of the three markers
    [format_response] knows; [render] is the text as the model writes it
    and [plain] is the same text with every line break marker turned into
    a line feed and every paragraph marker left out. *)

Inductive tag : Type := Br | ParOpen | ParClose.

Inductive piece : Type :=
| Text (s : string)
| Mark (t : tag).

Definition marker_of (t : tag) : string :=
  match t with
  | Br => "<br>"
  | ParOpen => "<p>"
  | ParClose => "</p>"
  end.

Definition tag_eqb (a b : tag) : bool :=
  match a, b with
  | Br, Br | ParOpen, ParOpen | ParClose, ParClose => true
  | _, _ => false
  end.

Fixpoint render (ps : list piece) : string :=
  match ps with
  | [] => EmptyString
  | Text s :: rest => s ++ render rest
  | Mark t :: rest => marker_of t ++ render rest
  end.

Fixpoint plain (ps : list piece) : string :=
  match ps with
  | [] => EmptyString
  | Text s :: rest => s ++ plain rest
  | Mark Br :: rest => String "010"%char (plain rest)
  | Mark _ :: rest => plain rest
  end.

(** The text has no [<] character. *)
Fixpoint free_of_lt (s : string) : bool :=
  match s with
  | EmptyString => true
  | String c s' => negb (Ascii.eqb "<"%char c) && free_of_lt s'
  end.

(** Every [<] of the rendered text opens a marker. *)
Definition clean (ps : list piece) : bool :=
  forallb (fun p => match p with Text s => free_of_lt s | Mark _ => true end) ps.

(** The pieces after one replacement pass for the marker [t]. *)
Definition subst_mark (t : tag) (new : string) (ps : list piece) : list piece :=
  map (fun p => match p with
                | Mark t' => if tag_eqb t t' then Text new else p
                | Text _ => p
                end) ps.

(** ** The domain of the string model *)

(** Every character of the text is an ASCII character. *)
Fixpoint is_ascii (s : string) : bool :=
  match s with
  | EmptyString => true
  | String c s' => (nat_of_ascii c <? 128)%nat && is_ascii s'
  end.

(** ** Statements as words and separators

    A statement cut into words, maximal runs of letters, digits and
    underscores, and the text between them.  [Quoted w] is a word between
    double quotes. *)












(** ** Sample backends *)

(** A backend that answers the three prompts of the pipeline with fixed
    texts: [elab] for the elaboration, [synth] for the SQL synthesis and
    [summ] for the summary; the table has columns [cols]. *)
Definition sample_llm (elab synth summ : outcome string) (prompt : string)
  : outcome string :=
  if PyStr.startswith prompt "Understand" then elab
  else if PyStr.startswith prompt "You are an agent" then synth
  else summ.

Definition sample_frame : DataFrame := [("count", ["12"])].

Definition sample_backend (elab synth summ : outcome string) (cols : list string)
  : Backend :=
  {| llm_invoke := sample_llm elab synth summ;
     from_uri := fun uri => Return (SQLDatabase_of_uri uri);
     get_columns := fun _ => Return cols;
     read_sql := fun _ => Return sample_frame;
     read_json := fun _ => Raise (ValueError "Expected object or value");
     to_string := fun _ => "count" ++ nl ++ "   12";
     to_dict := fun _ => "{'count': {0: 12}}";
     send_activity := fun _ => Return tt |}.

Definition sample_columns : list string := ["id"; "name"; "department"].

(** Every stage succeeds. *)
Definition good_backend : Backend :=
  sample_backend
    (Return "The user wants the number of employees in engineering.")
    (Return "SELECT COUNT(*) FROM employees WHERE department = 'engineering'")
    (Return " There are 12 employees in engineering.<br>Any follow-up questions? ")
    sample_columns.

(** The model writes a statement that is not a query of the table. *)
Definition bad_sql_backend : Backend :=
  sample_backend
    (Return "The user wants the staff table removed.")
    (Return "DROP TABLE staff")
    (Return "Done.")
    sample_columns.

(** The first model call fails with a [ValueError]. *)
Definition elaborate_fails_backend : Backend :=
  sample_backend
    (Raise (ValueError "Azure has not provided the response due to a content filter"))
    (Return "SELECT * FROM employees")
    (Return "Done.")
    sample_columns.

(** The summary is a JSON array and [read_json] parses it. *)
Definition json_backend : Backend :=
  {| llm_invoke :=
       sample_llm (Return "The user wants the head count.")
                  (Return "SELECT COUNT(*) FROM employees")
                  (Return ("[{" ++ dquote ++ "count" ++ dquote ++ ": 12}]"));
     from_uri := fun uri => Return (SQLDatabase_of_uri uri);
     get_columns := fun _ => Return sample_columns;
     read_sql := fun _ => Return sample_frame;
     read_json := fun _ => Return sample_frame;
     to_string := fun _ => "count" ++ nl ++ "   12";
     to_dict := fun _ => "{'count': {0: 12}}";
     send_activity := fun _ => Return tt |}.

Definition sample_db : SQLDatabase := SQLDatabase_of_uri DATABASE_URL.

(** ** The other activity handler of [MyBot] *)

Section MembersAdded.

Context (B : Backend).

(** [on_members_added_activity]: the members added to the conversation
    are given by their ids; every member other than the recipient of the
    activity, the bot itself, is sent the greeting. *)
Fixpoint on_members_added_activity (members_added : list string)
         (recipient_id : string) : M unit :=
  match members_added with
  | [] => ret tt
  | member :: rest =>
      (if negb (String.eqb member recipient_id)
       then call (SendActivity (Some GREETING_RESPONSE))
                 (send_activity B (Some GREETING_RESPONSE))
       else ret tt) ;;
      on_members_added_activity rest recipient_id
  end.

End MembersAdded.

(** ** The HTTP endpoint of [main.py] *)

(** The response of the adapter to an activity, when it has one. *)
Record InvokeResponse : Type := {
  invoke_status : nat;
  invoke_body : string
}.

Record HttpResponse : Type := {
  status : nat;
  body : option string
}.

(** An inbound request: its headers in the order received and what
    [req.json()] gives for its body. *)
Record Request : Type := {
  headers : list (string * string);
  json : outcome string
}.

(** The adapter: [Activity().deserialize(body)] and
    [adapter.process_activity(activity, auth_header, bot.on_turn)]. *)
Record Adapter : Type := {
  deserialize : string -> outcome string;
  process_activity : string -> string -> outcome (option InvokeResponse)
}.

Inductive http_event : Type :=
| ReadJson
| Deserialize (body : string)
| ProcessActivity (activity auth_header : string).

(** [req.headers[name]] and [name in req.headers]: header names are
    compared without regard to case and the first match is taken. *)
Fixpoint get_header (name : string) (hs : list (string * string)) : option string :=
  match hs with
  | [] => None
  | (k, v) :: rest =>
      if String.eqb (PyStr.lower k) (PyStr.lower name) then Some v
      else get_header name rest
  end.

Definition has_header (name : string) (hs : list (string * string)) : bool :=
  match get_header name hs with
  | Some _ => true
  | None => false
  end.

(** [str(KeyError(name))] *)
Definition key_error (name : string) : exn :=
  OtherException ("'" ++ name ++ "'").

Definition messages (A : Adapter) (req : Request)
  : list http_event * outcome HttpResponse :=
  match get_header "Content-Type" (headers req) with
  | None => ([], Raise (key_error "Content-Type"))
  | Some content_type =>
      if PyStr.contains "application/json" content_type
      then
        match json req with
        | Raise e => ([ReadJson], Raise e)
        | Return req_body =>
            match deserialize A req_body with
            | Raise e => ([ReadJson; Deserialize req_body], Raise e)
            | Return activity =>
                let auth_header :=
                  if has_header "Authorization" (headers req)
                  then match get_header "Authorization" (headers req) with
                       | Some v => v
                       | None => EmptyString
                       end
                  else EmptyString in
                let t := [ReadJson; Deserialize req_body;
                          ProcessActivity activity auth_header] in
                match process_activity A activity auth_header with
                | Raise e => (t, Raise e)
                | Return (Some response) =>
                    (t, Return {| status := invoke_status response;
                                  body := Some (invoke_body response) |})
                | Return None => (t, Return {| status := 201; body := None |})
                end
            end
        end
      else ([], Return {| status := 415; body := None |})
  end.

Definition is_process_activity (ev : http_event) : bool :=
  match ev with
  | ProcessActivity _ _ => true
  | _ => false
  end.

(** A text made of whitespace only. *)
Fixpoint all_space (s : string) : bool :=
  match s with
  | EmptyString => true
  | String c s' => PyStr.is_space c && all_space s'
  end.

(** The text is empty or starts with a character that is not
    whitespace. *)
Definition head_not_space (s : string) : bool :=
  match s with
  | EmptyString => true
  | String c _ => negb (PyStr.is_space c)
  end.

(** [d[k]] on a dictionary kept as an association list. *)
Fixpoint dict_get (k : string) (d : list (string * string)) : option string :=
  match d with
  | [] => None
  | (k', v) :: d' => if String.eqb k k' then Some v else dict_get k d'
  end.

(** A sample adapter and sample requests. *)
Definition sample_adapter : Adapter :=
  {| deserialize := fun b => Return b;
     process_activity := fun _ _ => Return None |}.

Definition json_request : Request :=
  {| headers := [("content-type", "application/json; charset=utf-8")];
     json := Return "{}" |}.

Definition form_request : Request :=
  {| headers := [("Content-Type", "text/plain")];
     json := Raise (ValueError "Expecting value") |}.

(** A backend whose database cannot be reached. *)
Definition no_database_backend : Backend :=
  {| llm_invoke := sample_llm (Return "x") (Return "SELECT 1 FROM employees") (Return "y");
     from_uri := fun _ => Raise (OtherException "connection refused");
     get_columns := fun _ => Raise (OtherException "connection refused");
     read_sql := fun _ => Raise (OtherException "connection refused");
     read_json := fun _ => Raise (ValueError "Expected object or value");
     to_string := fun _ => EmptyString;
     to_dict := fun _ => "{}";
     send_activity := fun _ => Return tt |}.

(** A backend whose query execution fails. *)
Definition execution_fails_backend : Backend :=
  {| llm_invoke :=
       sample_llm (Return "The user wants the head count.")
                  (Return "SELECT COUNT(*) FROM employees")
                  (Return "Done.");
     from_uri := fun uri => Return (SQLDatabase_of_uri uri);
     get_columns := fun _ => Return sample_columns;
     read_sql := fun _ => Raise (OtherException "connection refused");
     read_json := fun _ => Raise (ValueError "Expected object or value");
     to_string := fun _ => EmptyString;
     to_dict := fun _ => "{}";
     send_activity := fun _ => Return tt |}.

(** A backend whose JSON reader fails with an exception that is not a
    [ValueError]. *)
Definition json_type_error_backend : Backend :=
  {| llm_invoke := sample_llm (Return "d") (Return "SELECT 1 FROM employees")
                              (Return "[1, 2]");
     from_uri := fun uri => Return (SQLDatabase_of_uri uri);
     get_columns := fun _ => Return sample_columns;
     read_sql := fun _ => Return sample_frame;
     read_json := fun _ => Raise (OtherException "unhashable type");
     to_string := fun _ => EmptyString;
     to_dict := fun _ => "{}";
     send_activity := fun _ => Return tt |}.

(** A backend whose transport rejects every message. *)
Definition no_transport_backend : Backend :=
  {| llm_invoke := sample_llm (Return "d") (Return "SELECT 1 FROM employees")
                              (Return "Done.");
     from_uri := fun uri => Return (SQLDatabase_of_uri uri);
     get_columns := fun _ => Return sample_columns;
     read_sql := fun _ => Return sample_frame;
     read_json := fun _ => Raise (ValueError "Expected object or value");
     to_string := fun _ => EmptyString;
     to_dict := fun _ => "{}";
     send_activity := fun _ => Raise (OtherException "channel closed") |}.


(** The summary is a bracketed text that is not JSON. *)
Definition broken_json_backend : Backend :=
  sample_backend
    (Return "The user wants the head count.")
    (Return "SELECT COUNT(*) FROM employees")
    (Return "[1, 2<br>3")
    sample_columns.

(** * Properties *)

(** ** Strings *)

Module PyStrFacts.
Import PyStr.

Lemma append_empty_r (s : string) : s ++ EmptyString = s.
Proof. induction s as [|c s IH]; simpl; [reflexivity | now rewrite IH]. Qed.

Lemma append_assoc (a b c : string) : (a ++ b) ++ c = a ++ b ++ c.
Proof. induction a as [|x a IH]; simpl; [reflexivity | now rewrite IH]. Qed.

Lemma startswith_spec (s p : string) :
  startswith s p = true <-> exists post, s = p ++ post.
Proof.
  revert s; induction p as [|a p IH]; intros s; simpl.
  - split; [intros _; now exists s | reflexivity].
  - destruct s as [|b s].
    + split; [discriminate | intros [post H]; discriminate].
    + rewrite andb_true_iff, Ascii.eqb_eq, IH. split.
      * intros [-> [post ->]]. now exists post.
      * intros [post H]. injection H as -> ->. split; [reflexivity | now exists post].
Qed.

Lemma contains_spec (sub s : string) :
  contains sub s = true <-> exists pre post, s = pre ++ sub ++ post.
Proof.
  induction s as [|c s IH]; simpl; rewrite orb_true_iff, startswith_spec.
  - split.
    + intros [[post H] | H]; [| discriminate]. now exists EmptyString, post.
    + intros [pre [post H]]. left. destruct pre; [now exists post | discriminate].
  - rewrite IH. split.
    + intros [[post H] | [pre [post H]]].
      * now exists EmptyString, post.
      * exists (String c pre), post. simpl. now rewrite H.
    + intros [pre [post H]]. destruct pre as [|x pre]; simpl in H.
      * left. now exists post.
      * right. injection H as _ H. now exists pre, post.
Qed.

Lemma map_chars_app (f : ascii -> ascii) (a b : string) :
  map_chars f (a ++ b) = map_chars f a ++ map_chars f b.
Proof. induction a as [|x a IH]; simpl; [reflexivity | now rewrite IH]. Qed.

Lemma map_chars_split (f : ascii -> ascii) (s a b : string) :
  map_chars f s = a ++ b ->
  exists s1 s2, s = s1 ++ s2 /\ map_chars f s1 = a /\ map_chars f s2 = b.
Proof.
  revert s; induction a as [|x a IH]; intros s H; simpl in H.
  - now exists EmptyString, s.
  - destruct s as [|c s]; simpl in H; [discriminate |].
    injection H as Hc H. destruct (IH _ H) as [s1 [s2 [-> [H1 H2]]]].
    exists (String c s1), s2. simpl. now rewrite Hc, H1.
Qed.

Lemma contains_upper_spec (sub s : string) :
  contains (upper sub) (upper s) = true <-> occurs_ignoring_case sub s.
Proof.
  rewrite contains_spec. unfold occurs_ignoring_case, upper. split.
  - intros [pre [post H]].
    destruct (map_chars_split _ _ _ _ H) as [s1 [s2 [-> [H1 H2]]]].
    destruct (map_chars_split _ _ _ _ H2) as [w [s3 [-> [H3 H4]]]].
    now exists s1, w, s3.
  - intros [pre [w [post [-> H]]]].
    exists (map_chars upper_char pre), (map_chars upper_char post).
    now rewrite !map_chars_app, H.
Qed.

(** Replacing a text that does not occur changes nothing. *)
Lemma replace_scan_absent (old new s : string) :
  contains old s = false -> replace_scan old new 0 s = s.
Proof.
  induction s as [|c s IH]; [reflexivity |].
  cbn [contains replace_scan]. intros H. apply orb_false_iff in H as [H1 H2].
  rewrite H1. now rewrite IH.
Qed.

Lemma replace_absent (s old new : string) :
  contains old s = false -> replace s old new = s.
Proof.
  destruct old as [|a old]; simpl.
  - destruct s; discriminate.
  - apply replace_scan_absent.
Qed.

Lemma is_space_lower_char (c : ascii) : is_space (lower_char c) = is_space c.
Proof.
  destruct c as [[] [] [] [] [] [] [] []]; reflexivity.
Qed.

Lemma lstrip_lower (s : string) : lstrip (lower s) = lower (lstrip s).
Proof.
  induction s as [|c s IH]; simpl; [reflexivity |].
  rewrite is_space_lower_char. destruct (is_space c); [exact IH | reflexivity].
Qed.

Lemma rstrip_lower (s : string) : rstrip (lower s) = lower (rstrip s).
Proof.
  induction s as [|c s IH]; simpl; [reflexivity |].
  unfold lower in IH. rewrite IH, is_space_lower_char.
  destruct (rstrip s); simpl; [destruct (is_space c) |]; reflexivity.
Qed.

(** Trimming and lower-casing commute. *)
Lemma strip_lower (s : string) : strip (lower s) = lower (strip s).
Proof. unfold strip. now rewrite lstrip_lower, rstrip_lower. Qed.

Lemma mem_In (x : string) (xs : list string) : mem x xs = true <-> In x xs.
Proof.
  unfold mem. rewrite existsb_exists. split.
  - intros [y [Hy E]]. apply String.eqb_eq in E. now subst.
  - intros H. exists x. split; [exact H | apply String.eqb_refl].
Qed.



(** A character at which [old] does not start is copied. *)
Lemma replace_at_mismatch (c a : ascii) (old' new s : string) :
  startswith (String c s) (String a old') = false ->
  replace (String c s) (String a old') new
  = String c (replace s (String a old') new).
Proof. unfold replace. cbn [replace_scan]. now intros ->. Qed.

End PyStrFacts.

(** ** The pipeline, path by path *)

Arguments elaborate_prompt : simpl never.
Arguments sql_prompt : simpl never.
Arguments final_prompt : simpl never.
Arguments quote_columns : simpl never.
Arguments dict_comprehension : simpl never.
Arguments sql_is_valid : simpl never.
Arguments format_response : simpl never.
Arguments PyStr.strip : simpl never.

Section PipelineFacts.

Context (B : Backend).

Lemma count_app (p : event -> bool) (t1 t2 : list event) :
  count p (t1 ++ t2)%list = count p t1 + count p t2.
Proof. unfold count. now rewrite filter_app, length_app. Qed.

Lemma create_sql_query_unfold (response : string) (db : SQLDatabase) :
  create_sql_query_from_response B response db =
  match get_columns B TABLE_NAME with
  | Raise e => ([GetColumns TABLE_NAME], Raise e)
  | Return cols =>
      let p := sql_prompt cols response in
      match llm_invoke B p with
      | Raise e => ([GetColumns TABLE_NAME; LlmInvoke p], Raise e)
      | Return stmt =>
          let (t, r) := validate_and_quote cols stmt in
          ((GetColumns TABLE_NAME :: LlmInvoke p :: t)%list, r)
      end
  end.
Proof.
  unfold create_sql_query_from_response, validate_and_quote, call, bind.
  destruct (get_columns B TABLE_NAME) as [cols|e]; [| reflexivity].
  cbv zeta. destruct (llm_invoke B (sql_prompt cols response)) as [stmt|e];
    [| reflexivity].
  destruct (sql_is_valid (PyStr.strip stmt)); reflexivity.
Qed.

Lemma pipeline_unfold (q : string) (db : SQLDatabase) :
  pipeline B q db =
  let p1 := elaborate_prompt q in
  match llm_invoke B p1 with
  | Raise e => ([LlmInvoke p1], Raise e)
  | Return d =>
      match create_sql_query_from_response B (PyStr.strip d) db with
      | (t, Raise e) => ((LlmInvoke p1 :: t)%list, Raise e)
      | (t, Return sql) =>
          let (t', r) := execute_and_summarize B q sql in
          ((LlmInvoke p1 :: t ++ LogInfo ("Generated SQL Query: " ++ sql) :: t')%list, r)
      end
  end.
Proof.
  unfold pipeline, elaborate_user_input, execute_and_summarize,
    execute_sql_query, prepare_final_response, log_info, emit, lift, call, bind, ret.
  cbv zeta. destruct (llm_invoke B (elaborate_prompt q)) as [d|e]; [| reflexivity].
  cbn [app]. destruct (create_sql_query_from_response B (PyStr.strip d) db) as [t [sql|e]];
    [| now rewrite ?app_nil_r, <- ?app_assoc].
  destruct (read_sql B sql) as [df|e]; cbn [app]; [| now rewrite ?app_nil_r, <- ?app_assoc].
  destruct (llm_invoke B (final_prompt B q df)) as [r|e]; cbn [app]; [| now rewrite ?app_nil_r, <- ?app_assoc].
  destruct (format_response B (PyStr.strip r)) as [f|e]; cbn [app]; now rewrite ?app_nil_r, <- ?app_assoc.
Qed.

End PipelineFacts.

(** ** [handle_query] and its handlers *)

Section HandlerFacts.

Context (B : Backend).

Lemma try_except_on_exception (m : M (option string)) :
  try_except m on_exception =
  match m with
  | (t, Return a) => (t, Return a)
  | (t, Raise e) => ((t ++ [log_for e])%list, Return (Some (message_for e)))
  end.
Proof. destruct m as [t [a|[ve|msg]]]; reflexivity. Qed.

Lemma handle_query_nonempty (q : string) (db : SQLDatabase) :
  PyStr.truthy q = true ->
  handle_query B q db = try_except (pipeline B q db) on_exception.
Proof. unfold handle_query. now intros ->. Qed.

Lemma handle_query_total (q : string) (db : SQLDatabase) :
  exists r, result (handle_query B q db) = Return r.
Proof.
  unfold handle_query. destruct (PyStr.truthy q).
  - rewrite try_except_on_exception.
    destruct (pipeline B q db) as [t [a|e]]; eexists; reflexivity.
  - now exists None.
Qed.

Lemma sql_is_valid_spec (sql : string) :
  sql_is_valid sql = true <->
  PyStr.occurs_ignoring_case "SELECT" sql /\ PyStr.occurs TABLE_NAME sql.
Proof.
  unfold sql_is_valid. rewrite andb_true_iff.
  change "SELECT" with (PyStr.upper "SELECT") at 1.
  now rewrite PyStrFacts.contains_upper_spec, PyStrFacts.contains_spec.
Qed.

Lemma intro_step_unfold (ctx : WaterfallStepContext) :
  intro_step B ctx =
  let text := activity_text ctx in
  match from_uri B DATABASE_URL with
  | Raise e => (intro_prefix text, Raise e)
  | Return db =>
      match (if is_greeting text then ret (Some GREETING_RESPONSE)
             else handle_query B text db) with
      | (t, Raise e) => ((intro_prefix text ++ t)%list, Raise e)
      | (t, Return response) =>
          ((intro_prefix text ++ t ++ [SendActivity response])%list,
           match send_activity B response with
           | Return _ => Return EndDialog
           | Raise e => Raise e
           end)
      end
  end.
Proof.
  unfold intro_step, create_database_connection, log_info, emit, call, bind, intro_prefix.
  cbv zeta. destruct (from_uri B DATABASE_URL) as [db|e]; [| reflexivity].
  cbn [app].
  destruct (if is_greeting (activity_text ctx) then ret (Some GREETING_RESPONSE)
            else handle_query B (activity_text ctx) db) as [t [response|e]];
    [| now rewrite ?app_nil_r].
  destruct (send_activity B response) as [u|e]; cbn [ret app];
    now rewrite ?app_nil_r.
Qed.

Lemma is_greeting_spec (text : string) :
  is_greeting text = true <-> In (PyStr.lower (PyStr.strip text)) greetings.
Proof.
  unfold is_greeting. now rewrite PyStrFacts.mem_In, PyStrFacts.strip_lower.
Qed.

Lemma is_greeting_nonempty (q : string) :
  is_greeting q = true -> PyStr.truthy q = true.
Proof. destruct q; [discriminate | reflexivity]. Qed.

(** The path on which every stage up to the summary succeeds. *)
Lemma handle_query_summary_path (q : string) (db : SQLDatabase)
      (d : string) (cols : list string) (stmt : string) (df : DataFrame) (r : string) :
  PyStr.truthy q = true ->
  llm_invoke B (elaborate_prompt q) = Return d ->
  get_columns B TABLE_NAME = Return cols ->
  llm_invoke B (sql_prompt cols (PyStr.strip d)) = Return stmt ->
  sql_is_valid (PyStr.strip stmt) = true ->
  let sql := quote_columns (dict_comprehension quoted cols) (PyStr.strip stmt) in
  read_sql B sql = Return df ->
  llm_invoke B (final_prompt B q df) = Return r ->
  handle_query B q db =
  let t := [LlmInvoke (elaborate_prompt q); GetColumns TABLE_NAME;
            LlmInvoke (sql_prompt cols (PyStr.strip d));
            LogInfo ("Generated SQL Query: " ++ sql);
            ReadSql sql; LlmInvoke (final_prompt B q df)] in
  match format_response B (PyStr.strip r) with
  | Return f => (t, Return (Some f))
  | Raise e => ((t ++ [log_for e])%list, Return (Some (message_for e)))
  end.
Proof.
  intros Hq Hd Hc Hs Hv sql Hr Hf.
  rewrite handle_query_nonempty by exact Hq.
  rewrite try_except_on_exception, pipeline_unfold. cbv zeta.
  rewrite Hd, create_sql_query_unfold, Hc. cbv zeta. rewrite Hs.
  unfold validate_and_quote, execute_and_summarize. cbv zeta.
  rewrite Hv. fold sql. rewrite Hr, Hf.
  destruct (format_response B (PyStr.strip r)) as [f|e]; reflexivity.
Qed.

Lemma handle_query_events (q : string) (db : SQLDatabase) :
  forallb is_pipeline_event (trace (handle_query B q db)) = true.
Proof.
  unfold handle_query. destruct (PyStr.truthy q); [| reflexivity].
  rewrite try_except_on_exception, pipeline_unfold. cbv zeta.
  destruct (llm_invoke B (elaborate_prompt q)) as [d|e]; [| now destruct e].
  rewrite create_sql_query_unfold. unfold validate_and_quote. cbv zeta.
  destruct (get_columns B TABLE_NAME) as [cols|e]; [| now destruct e].
  destruct (llm_invoke B (sql_prompt cols (PyStr.strip d))) as [stmt|e];
    [| now destruct e].
  destruct (sql_is_valid (PyStr.strip stmt)); [| reflexivity].
  unfold execute_and_summarize. set (sql := quote_columns _ _).
  destruct (read_sql B sql) as [df|e]; [| now destruct e].
  destruct (llm_invoke B (final_prompt B q df)) as [r|e]; [| now destruct e].
  destruct (format_response B (PyStr.strip r)) as [f|e]; [| destruct e]; reflexivity.
Qed.

Lemma count_none (p : event -> bool) (t : list event) :
  (forall ev, In ev t -> p ev = false) -> count p t = 0.
Proof.
  unfold count. induction t as [|ev t IH]; [reflexivity |]. intros H. cbn.
  rewrite (H ev (or_introl eq_refl)). apply IH. intros ev' Hin. apply H. now right.
Qed.

Lemma pipeline_events_run_no_step (s : step_id) (t : list event) :
  forallb is_pipeline_event t = true -> count (runs_step s) t = 0.
Proof.
  intros H. apply count_none. intros ev Hin.
  rewrite forallb_forall in H. specialize (H ev Hin).
  destruct ev; try discriminate; reflexivity.
Qed.

End HandlerFacts.

(** ** The claims *)

(** C1 (as amended).  Once the columns are read and the model has
    answered, [create_sql_query_from_response] returns a statement if and
    only if SELECT occurs in the upper-cased trimmed answer and the table
    name occurs in the trimmed answer as written; for an answer of ASCII
    characters that is: the trimmed answer contains SELECT in some letter
    case, and the table name.  A rejected answer is written to the error
    log and a [ValueError] with the fixed message [INVALID_SQL_ERROR] is
    raised, which does not carry the rejected text; inside [handle_query]
    that error is caught and the fixed validation message is returned. *)
Theorem create_sql_query_accepts_iff
    (B : Backend) (response : string) (db : SQLDatabase)
    (cols : list string) (stmt : string) :
  get_columns B TABLE_NAME = Return cols ->
  llm_invoke B (sql_prompt cols response) = Return stmt ->
  let sql := PyStr.strip stmt in
  let accepted :=
    PyStr.occurs "SELECT" (PyStr.upper sql) /\ PyStr.occurs TABLE_NAME sql in
  ((exists q, result (create_sql_query_from_response B response db) = Return q)
     <-> accepted)
  /\ (is_ascii stmt = true ->
      (accepted <->
       PyStr.occurs_ignoring_case "SELECT" sql /\ PyStr.occurs TABLE_NAME sql))
  /\ (~ accepted ->
      create_sql_query_from_response B response db =
        ([GetColumns TABLE_NAME; LlmInvoke (sql_prompt cols response);
          LogError ("Invalid SQL generated: " ++ sql)],
         Raise (ValueError "Generated SQL is not valid. Please check the AI's response.")))
  /\ (~ accepted ->
      forall q d, PyStr.truthy q = true ->
        llm_invoke B (elaborate_prompt q) = Return d ->
        response = PyStr.strip d ->
        result (handle_query B q db) = Return (Some SQL_ISSUE_MESSAGE)).
Proof.
  intros Hc Hl sql accepted.
  assert (E : create_sql_query_from_response B response db =
              let (t, r) := validate_and_quote cols stmt in
              ((GetColumns TABLE_NAME :: LlmInvoke (sql_prompt cols response) :: t)%list, r)).
  { rewrite create_sql_query_unfold, Hc. cbv zeta. now rewrite Hl. }
  unfold validate_and_quote in E. cbv zeta in E. fold sql in E.
  assert (V : sql_is_valid sql = true <-> accepted).
  { unfold sql_is_valid, accepted.
    now rewrite andb_true_iff, !PyStrFacts.contains_spec. }
  assert (W : accepted <->
              PyStr.occurs_ignoring_case "SELECT" sql /\ PyStr.occurs TABLE_NAME sql).
  { rewrite <- V. apply sql_is_valid_spec. }
  destruct (sql_is_valid sql) eqn:Hv.
  - assert (A : accepted) by now apply V.
    split; [| split; [| split]]; try (intros N; now elim N).
    + split; [intros _; exact A |]. intros _. rewrite E. eexists; reflexivity.
    + intros _. exact W.
  - assert (N : ~ accepted) by (intros A; apply V in A; discriminate).
    split; [| split; [| split]].
    + split; [| intros A; now elim N]. rewrite E. intros [q Hq]. discriminate.
    + intros _. exact W.
    + intros _. exact E.
    + intros _ q d Hq Hd ->. rewrite handle_query_nonempty by exact Hq.
      rewrite pipeline_unfold. cbv zeta. rewrite Hd, E. reflexivity.
Qed.

(** C1, witness: the statement [DROP TABLE staff] is rejected. *)
Lemma create_sql_query_accepts_iff_witness :
  create_sql_query_from_response bad_sql_backend "remove the staff table" sample_db =
    ([GetColumns TABLE_NAME;
      LlmInvoke (sql_prompt sample_columns "remove the staff table");
      LogError "Invalid SQL generated: DROP TABLE staff"],
     Raise (ValueError "Generated SQL is not valid. Please check the AI's response."))
  /\ ~ (PyStr.occurs_ignoring_case "SELECT" "DROP TABLE staff"
        /\ PyStr.occurs TABLE_NAME "DROP TABLE staff").
Proof.
  pose proof (create_sql_query_accepts_iff bad_sql_backend
                "remove the staff table" sample_db sample_columns "DROP TABLE staff"
                eq_refl eq_refl) as [_ [Hascii [Hreject _]]].
  assert (N : ~ (PyStr.occurs "SELECT" (PyStr.upper (PyStr.strip "DROP TABLE staff"))
                 /\ PyStr.occurs TABLE_NAME (PyStr.strip "DROP TABLE staff"))).
  { intros [_ A]. apply PyStrFacts.contains_spec in A. vm_compute in A. discriminate. }
  split; [exact (Hreject N) |].
  intros A. apply N. apply (proj2 (Hascii eq_refl)). exact A.
Defined.

(** C1, counterexample: the error raised for the rejected statement
    [DROP TABLE staff] does not carry that text. *)
Lemma rejected_text_not_carried :
  sql_is_valid (PyStr.strip "DROP TABLE staff") = false /\
  ~ (exists msg,
        result (create_sql_query_from_response bad_sql_backend
                  "remove the staff table" sample_db) = Raise (ValueError msg)
        /\ PyStr.contains "DROP TABLE staff" msg = true).
Proof.
  split; [reflexivity |].
  intros [msg [H C]]. vm_compute in H. injection H as <-. vm_compute in C. discriminate.
Qed.

(** C2 (as amended).  For an input that, trimmed and lower-cased, is one
    of the greeting phrases, the intro step makes no model call, no schema
    introspection and no query execution; it does create the database
    connection once, before the greeting check, and when that succeeds it
    sends the canned greeting and nothing else. *)
Theorem greeting_skips_model_and_queries (B : Backend) (ctx : WaterfallStepContext) :
  In (PyStr.lower (PyStr.strip (activity_text ctx))) greetings ->
  let t := trace (intro_step B ctx) in
  count is_llm_call t = 0 /\ count is_introspection t = 0
  /\ count is_execution t = 0 /\ count is_connection t = 1
  /\ (forall db, from_uri B DATABASE_URL = Return db ->
        t = (intro_prefix (activity_text ctx)
               ++ [SendActivity (Some GREETING_RESPONSE)])%list).
Proof.
  intros G. apply is_greeting_spec in G.
  rewrite intro_step_unfold. cbv zeta. rewrite G.
  destruct (from_uri B DATABASE_URL) as [db|e]; cbn [ret].
  - repeat split; try reflexivity.
  - repeat split; try reflexivity. intros db H; discriminate.
Qed.

(** C2, witness: the input [" Hello "]. *)
Lemma greeting_skips_model_and_queries_witness :
  let t := trace (intro_step good_backend
                    {| activity_text := " Hello "; step_result := None |}) in
  count is_llm_call t = 0 /\ count is_introspection t = 0
  /\ count is_execution t = 0 /\ count is_connection t = 1
  /\ (forall db, from_uri good_backend DATABASE_URL = Return db ->
        t = (intro_prefix " Hello " ++ [SendActivity (Some GREETING_RESPONSE)])%list).
Proof.
  apply (greeting_skips_model_and_queries good_backend
           {| activity_text := " Hello "; step_result := None |}).
  vm_compute. tauto.
Defined.

(** C2, counterexample: on the greeting [hi] the intro step does make a
    database call, the creation of the connection. *)
Lemma greeting_creates_connection :
  In (PyStr.lower (PyStr.strip "hi")) greetings /\
  count is_database_call
    (trace (intro_step good_backend {| activity_text := "hi"; step_result := None |}))
  <> 0.
Proof. split; [vm_compute; tauto | vm_compute; discriminate]. Qed.

(** C3 (as amended).  For a non-empty question [handle_query] never
    raises.  When a stage of the pipeline raises, the text returned
    depends on the class of the exception only: a [ValueError], whether it
    comes from the validation of the statement or from any other stage,
    gives the fixed validation message, and every other exception gives
    the fixed failure message.  In particular a statement rejected by the
    validation gives the validation message. *)
Theorem handle_query_failure_mapping (B : Backend) (q : string) (db : SQLDatabase) :
  PyStr.truthy q = true ->
  (exists r, result (handle_query B q db) = Return r)
  /\ (forall e, result (pipeline B q db) = Raise e ->
        result (handle_query B q db) = Return (Some (message_for e))
        /\ (message_for e = SQL_ISSUE_MESSAGE \/ message_for e = FAILED_MESSAGE))
  /\ (validation_rejects B q = true ->
        result (pipeline B q db) = Raise (ValueError INVALID_SQL_ERROR)
        /\ result (handle_query B q db) = Return (Some SQL_ISSUE_MESSAGE)).
Proof.
  intros Hq. split; [apply handle_query_total |].
  rewrite handle_query_nonempty by exact Hq. rewrite try_except_on_exception.
  split.
  - intros e He. destruct (pipeline B q db) as [t [a|e']]; simpl in He; [discriminate |].
    injection He as ->. split; [reflexivity |]. destruct e; [now left | now right].
  - unfold validation_rejects. rewrite pipeline_unfold. cbv zeta.
    destruct (llm_invoke B (elaborate_prompt q)) as [d|e]; [| discriminate].
    rewrite create_sql_query_unfold. unfold validate_and_quote. cbv zeta.
    destruct (get_columns B TABLE_NAME) as [cols|e]; [| discriminate].
    destruct (llm_invoke B (sql_prompt cols (PyStr.strip d))) as [stmt|e]; [| discriminate].
    destruct (sql_is_valid (PyStr.strip stmt)); [discriminate |].
    intros _. split; reflexivity.
Qed.

(** C3, witness: the model answers with a statement that is rejected. *)
Lemma handle_query_failure_mapping_witness :
  result (handle_query bad_sql_backend "Remove the staff table" sample_db)
  = Return (Some SQL_ISSUE_MESSAGE).
Proof.
  apply (proj2 (proj2 (handle_query_failure_mapping bad_sql_backend
                         "Remove the staff table" sample_db eq_refl))).
  reflexivity.
Defined.

(** C3, counterexample: the elaboration call raises a [ValueError]; the
    validation is never reached, and the validation message is returned
    rather than the failure message. *)
Lemma value_error_of_another_stage :
  let q := "How many employees are in engineering?" in
  PyStr.truthy q = true
  /\ validation_rejects elaborate_fails_backend q = false
  /\ llm_invoke elaborate_fails_backend (elaborate_prompt q)
     = Raise (ValueError "Azure has not provided the response due to a content filter")
  /\ result (handle_query elaborate_fails_backend q sample_db)
     = Return (Some SQL_ISSUE_MESSAGE)
  /\ result (handle_query elaborate_fails_backend q sample_db)
     <> Return (Some FAILED_MESSAGE).
Proof. vm_compute. repeat split; discriminate. Qed.

(** C4 (as amended).  For a non-empty question [handle_query] makes at
    least one and at most three model calls, at most one schema
    introspection and at most one query execution.  When the statement
    passes validation there is exactly one introspection and exactly one
    execution, and when the execution returns there are exactly three
    model calls.  When the statement is rejected there are exactly two
    model calls, one introspection and no execution. *)
Theorem handle_query_call_counts (B : Backend) (q : string) (db : SQLDatabase) :
  PyStr.truthy q = true ->
  let t := trace (handle_query B q db) in
  (1 <= count is_llm_call t <= 3
   /\ count is_introspection t <= 1 /\ count is_execution t <= 1)
  /\ (forall d cols stmt,
        llm_invoke B (elaborate_prompt q) = Return d ->
        get_columns B TABLE_NAME = Return cols ->
        llm_invoke B (sql_prompt cols (PyStr.strip d)) = Return stmt ->
        let sql := PyStr.strip stmt in
        (sql_is_valid sql = true ->
           count is_introspection t = 1 /\ count is_execution t = 1
           /\ (forall df,
                 read_sql B (quote_columns (dict_comprehension quoted cols) sql)
                   = Return df ->
                 count is_llm_call t = 3))
        /\ (sql_is_valid sql = false ->
              count is_llm_call t = 2 /\ count is_introspection t = 1
              /\ count is_execution t = 0)).
Proof.
  intros Hq. rewrite handle_query_nonempty by exact Hq.
  rewrite try_except_on_exception, pipeline_unfold.
  unfold execute_and_summarize. cbv zeta.
  split.
  - destruct (llm_invoke B (elaborate_prompt q)) as [d|e]; [| destruct e; cbn; lia].
    rewrite create_sql_query_unfold. unfold validate_and_quote. cbv zeta.
    destruct (get_columns B TABLE_NAME) as [cols|e]; [| destruct e; cbn; lia].
    destruct (llm_invoke B (sql_prompt cols (PyStr.strip d))) as [stmt|e];
      [| destruct e; cbn; lia].
    destruct (sql_is_valid (PyStr.strip stmt)); [| cbn; lia].
    set (sql := quote_columns _ _).
    destruct (read_sql B sql) as [df|e]; [| destruct e; cbn; lia].
    destruct (llm_invoke B (final_prompt B q df)) as [r|e]; [| destruct e; cbn; lia].
    destruct (format_response B (PyStr.strip r)) as [f|e]; [| destruct e]; cbn; lia.
  - intros d cols stmt Hd Hc Hs. rewrite Hd, create_sql_query_unfold, Hc.
    unfold validate_and_quote. cbv zeta. rewrite Hs.
    destruct (sql_is_valid (PyStr.strip stmt)); (split; [| intros; try discriminate]).
    + intros _. set (sql := quote_columns _ _).
      destruct (read_sql B sql) as [df|e] eqn:Hr.
      * destruct (llm_invoke B (final_prompt B q df)) as [r|e].
        -- destruct (format_response B (PyStr.strip r)) as [f|e]; [| destruct e];
             (repeat split; intros; reflexivity).
        -- destruct e; (repeat split; intros; reflexivity).
      * destruct e; (repeat split; try reflexivity); intros; discriminate.
    + intros; discriminate.
    + cbn. repeat split; reflexivity.
Qed.

(** C4, witness: every stage succeeds, three model calls are made. *)
Lemma handle_query_call_counts_witness :
  count is_llm_call
    (trace (handle_query good_backend "How many employees are in engineering?" sample_db))
  = 3.
Proof.
  refine (proj2 (proj2 (proj1 (proj2 (handle_query_call_counts good_backend
            "How many employees are in engineering?" sample_db eq_refl)
            _ sample_columns _ eq_refl eq_refl eq_refl) eq_refl)) sample_frame eq_refl).
Defined.

(** C4, counterexample: the statement is rejected, and the non-empty,
    non-greeting question gets two model calls, not three. *)
Lemma rejected_statement_two_model_calls :
  let q := "Remove the staff table" in
  PyStr.truthy q = true /\ is_greeting q = false
  /\ count is_llm_call (trace (handle_query bad_sql_backend q sample_db)) <> 3.
Proof. vm_compute. repeat split; discriminate. Qed.

(** ** The column mapping *)

Section ColumnMapping.

Variable f : string -> string.

Lemma dict_set_entry (c : string) (l : list string) :
  dict_set c (f c) (map (dict_entry f) l) =
  if PyStr.mem c l then map (dict_entry f) l else map (dict_entry f) (l ++ [c])%list.
Proof.
  induction l as [|k l IH]; [reflexivity |].
  cbn [map dict_set dict_entry PyStr.mem existsb app].
  destruct (String.eqb c k) eqn:E; cbn [orb].
  - apply String.eqb_eq in E. now subst.
  - fold (PyStr.mem c l). fold (dict_entry f). rewrite IH.
    now destruct (PyStr.mem c l).
Qed.

Lemma mem_app_one (x c : string) (l : list string) :
  PyStr.mem x (l ++ [c])%list = PyStr.mem x l || String.eqb x c.
Proof.
  unfold PyStr.mem. rewrite existsb_app. cbn. now rewrite orb_false_r.
Qed.

Lemma filter_notin_present (c : string) (l X : list string) :
  PyStr.mem c l = true ->
  filter (absent_from l) (filter (differs_from c) X) = filter (absent_from l) X.
Proof.
  intros Hc. induction X as [|x X IH]; [reflexivity |].
  cbn [filter]. unfold differs_from at 1. destruct (String.eqb x c) eqn:E; cbn [negb].
  - apply String.eqb_eq in E. subst x. unfold absent_from at 2. rewrite Hc. exact IH.
  - cbn [filter]. now rewrite IH.
Qed.

Lemma filter_notin_absent (c : string) (l X : list string) :
  filter (absent_from (l ++ [c])) X = filter (absent_from l) (filter (differs_from c) X).
Proof.
  induction X as [|x X IH]; [reflexivity |].
  cbn [filter]. unfold absent_from at 1, differs_from at 1. rewrite mem_app_one.
  destruct (String.eqb x c); cbn [negb filter].
  - rewrite orb_true_r. exact IH.
  - rewrite orb_false_r. fold (absent_from l x). now rewrite IH.
Qed.

Lemma dict_fold_entries (cols l : list string) :
  fold_left (fun d col => dict_set col (f col) d) cols (map (dict_entry f) l) =
  map (dict_entry f) (l ++ filter (absent_from l) (first_occurrences cols))%list.
Proof.
  revert l; induction cols as [|c cols IH]; intros l.
  - cbn. now rewrite app_nil_r.
  - cbn [fold_left first_occurrences filter]. rewrite dict_set_entry.
    unfold absent_from at 1. destruct (PyStr.mem c l) eqn:Hc; cbn [negb].
    + rewrite IH. fold (differs_from c). now rewrite filter_notin_present.
    + rewrite IH. fold (differs_from c). rewrite filter_notin_absent.
      now rewrite <- app_assoc.
Qed.

(** The dictionary built by the comprehension lists the distinct
    columns in their order of first appearance. *)
Lemma dict_comprehension_entries (cols : list string) :
  dict_comprehension f cols = map (dict_entry f) (first_occurrences cols).
Proof.
  unfold dict_comprehension. change (@nil (string * string)) with (map (dict_entry f) []).
  rewrite dict_fold_entries. cbn [app]. f_equal.
  induction (first_occurrences cols) as [|x X IH]; [reflexivity |].
  cbn. now rewrite IH.
Qed.

Lemma quote_columns_entries (ks : list string) (sql : string) :
  quote_columns (map (dict_entry f) ks) sql =
  fold_left (fun q col => PyStr.replace q col (f col)) ks sql.
Proof.
  unfold quote_columns. revert sql.
  induction ks as [|k ks IH]; intros sql; [reflexivity |]. cbn. apply IH.
Qed.

Lemma first_occurrences_incl (xs : list string) (x : string) :
  In x (first_occurrences xs) -> In x xs.
Proof.
  induction xs as [|y xs IH]; [easy |]. cbn.
  intros [H | H]; [now left |]. right. apply IH.
  apply filter_In in H. tauto.
Qed.


End ColumnMapping.

Lemma first_occurrences_In (xs : list string) (x : string) :
  In x (first_occurrences xs) <-> In x xs.
Proof.
  split; [apply (first_occurrences_incl quoted) |].
  induction xs as [|y xs IH]; [easy |]. cbn [first_occurrences].
  destruct (String.eqb x y) eqn:E.
  - apply String.eqb_eq in E. subst. intros _. now left.
  - intros [-> | H]; [now left |]. right. apply filter_In.
    split; [now apply IH | now rewrite E].
Qed.

Lemma first_occurrences_distinct (xs : list string) : NoDup (first_occurrences xs).
Proof.
  induction xs as [|y xs IH]; [constructor |]. cbn [first_occurrences].
  constructor; [| now apply NoDup_filter].
  intros H. apply filter_In in H as [_ H]. now rewrite String.eqb_refl in H.
Qed.

(** ** Quoting a statement cut into words *)

Module TokenFacts.
Import PyStr.













End TokenFacts.




(** C7.  For the empty question [handle_query] returns [None] and makes
    no call at all.  The intro step does not look at what [handle_query]
    returned: for an input that is not a greeting it sends that value,
    whatever it is, and for the empty input it sends [None]. *)
Theorem empty_question_no_response (B : Backend) (ctx : WaterfallStepContext) :
  (forall db, handle_query B EmptyString db = ([], Return None))
  /\ (forall db,
        from_uri B DATABASE_URL = Return db ->
        is_greeting (activity_text ctx) = false ->
        exists r,
          result (handle_query B (activity_text ctx) db) = Return r
          /\ trace (intro_step B ctx) =
               (intro_prefix (activity_text ctx)
                  ++ trace (handle_query B (activity_text ctx) db)
                  ++ [SendActivity r])%list)
  /\ (forall db,
        from_uri B DATABASE_URL = Return db ->
        activity_text ctx = EmptyString ->
        trace (intro_step B ctx) = (intro_prefix EmptyString ++ [SendActivity None])%list).
Proof.
  split; [reflexivity |]. split.
  - intros db Hdb Hg. destruct (handle_query_total B (activity_text ctx) db) as [r Hr].
    exists r. split; [exact Hr |].
    rewrite intro_step_unfold. cbv zeta. rewrite Hdb, Hg.
    destruct (handle_query B (activity_text ctx) db) as [t [a|e]]; simpl in Hr;
      [| discriminate].
    injection Hr as ->. reflexivity.
  - intros db Hdb Ht. rewrite intro_step_unfold. cbv zeta. rewrite Hdb, Ht. reflexivity.
Qed.

(** C7, witness: the empty input reaches the transport as [None]. *)
Lemma empty_question_no_response_witness :
  trace (intro_step good_backend {| activity_text := EmptyString; step_result := None |})
  = (intro_prefix EmptyString ++ [SendActivity None])%list.
Proof.
  exact (proj2 (proj2 (empty_question_no_response good_backend
           {| activity_text := EmptyString; step_result := None |}))
           sample_db eq_refl eq_refl).
Defined.

(** C9.  [handle_query] does not check for greetings.  Given a greeting
    phrase it runs the pipeline like for any other non-empty question:
    its first event is the elaboration call to the model, and when the
    stages succeed it makes the three model calls and returns the
    formatted summary, not the canned greeting of the intro step. *)
Theorem handle_query_has_no_greeting_bypass
    (B : Backend) (q : string) (db : SQLDatabase) :
  is_greeting q = true ->
  handle_query B q db = try_except (pipeline B q db) on_exception
  /\ hd_error (trace (handle_query B q db)) = Some (LlmInvoke (elaborate_prompt q))
  /\ 1 <= count is_llm_call (trace (handle_query B q db))
  /\ (forall d cols stmt df r f,
        llm_invoke B (elaborate_prompt q) = Return d ->
        get_columns B TABLE_NAME = Return cols ->
        llm_invoke B (sql_prompt cols (PyStr.strip d)) = Return stmt ->
        sql_is_valid (PyStr.strip stmt) = true ->
        read_sql B (quote_columns (dict_comprehension quoted cols) (PyStr.strip stmt))
          = Return df ->
        llm_invoke B (final_prompt B q df) = Return r ->
        format_response B (PyStr.strip r) = Return f ->
        count is_llm_call (trace (handle_query B q db)) = 3
        /\ result (handle_query B q db) = Return (Some f)).
Proof.
  intros G. pose proof (is_greeting_nonempty q G) as Hq.
  split; [now apply handle_query_nonempty |].
  assert (H : exists t, trace (handle_query B q db)
                        = (LlmInvoke (elaborate_prompt q) :: t)%list).
  { rewrite handle_query_nonempty by exact Hq.
    rewrite try_except_on_exception, pipeline_unfold. cbv zeta.
    destruct (llm_invoke B (elaborate_prompt q)) as [d|e]; [| eexists; reflexivity].
    destruct (create_sql_query_from_response B (PyStr.strip d) db) as [t [sql|e]];
      [| eexists; reflexivity].
    destruct (execute_and_summarize B q sql) as [t' [a|e]]; eexists; reflexivity. }
  destruct H as [t Ht]. rewrite Ht. split; [reflexivity |]. split.
  - change (LlmInvoke (elaborate_prompt q) :: t)%list
      with ([LlmInvoke (elaborate_prompt q)] ++ t)%list.
    rewrite count_app. cbn. lia.
  - intros d cols stmt df r f Hd Hc Hs Hv Hr Hf Hfmt. rewrite <- Ht.
    rewrite (handle_query_summary_path B q db d cols stmt df r Hq Hd Hc Hs Hv Hr Hf).
    cbv zeta. rewrite Hfmt. split; reflexivity.
Qed.

(** C9, witness: [hello] given to [handle_query] costs three model calls
    and returns the summary. *)
Lemma handle_query_has_no_greeting_bypass_witness :
  count is_llm_call (trace (handle_query good_backend "hello" sample_db)) = 3
  /\ result (handle_query good_backend "hello" sample_db)
     = Return (Some ("There are 12 employees in engineering." ++ nl
                       ++ "Any follow-up questions?")).
Proof.
  exact (proj2 (proj2 (proj2 (handle_query_has_no_greeting_bypass good_backend
           "hello" sample_db eq_refl)))
           _ sample_columns _ sample_frame _ _
           eq_refl eq_refl eq_refl eq_refl eq_refl eq_refl eq_refl).
Defined.

(** C10 (as amended).  On a text whose trimmed form starts with an
    opening bracket and which [read_json] rejects with a [ValueError],
    [format_response] does not raise: it returns the text with each line
    break marker replaced by a line feed and the paragraph markers
    removed, as on the path without JSON, and [handle_query] returns that
    text.  On such a text [format_response] raises exactly when
    [read_json] fails with an exception that is not a [ValueError]; in
    [handle_query] that exception becomes the fixed failure message. *)
Theorem format_response_swallows_parse_error (B : Backend) (response : string) :
  PyStr.startswith (PyStr.strip response) "[" = true ->
  let replaced :=
    PyStr.replace
      (PyStr.replace (PyStr.replace response "<br>" (String "010"%char EmptyString))
                     "<p>" EmptyString)
      "</p>" EmptyString in
  (forall msg,
      read_json B response = Raise (ValueError msg) ->
      format_response B response = Return replaced)
  /\ ((exists e, format_response B response = Raise e)
      <-> exists msg, read_json B response = Raise (OtherException msg))
  /\ (forall q db d cols stmt df r,
        PyStr.truthy q = true ->
        llm_invoke B (elaborate_prompt q) = Return d ->
        get_columns B TABLE_NAME = Return cols ->
        llm_invoke B (sql_prompt cols (PyStr.strip d)) = Return stmt ->
        sql_is_valid (PyStr.strip stmt) = true ->
        read_sql B (quote_columns (dict_comprehension quoted cols) (PyStr.strip stmt))
          = Return df ->
        llm_invoke B (final_prompt B q df) = Return r ->
        response = PyStr.strip r ->
        (forall msg,
            read_json B response = Raise (ValueError msg) ->
            result (handle_query B q db) = Return (Some replaced))
        /\ (forall msg,
              read_json B response = Raise (OtherException msg) ->
              result (handle_query B q db) = Return (Some FAILED_MESSAGE))).
Proof.
  intros Hs replaced.
  assert (V : forall msg, read_json B response = Raise (ValueError msg) ->
                          format_response B response = Return replaced).
  { intros msg Hj. unfold format_response. now rewrite Hs, Hj. }
  assert (O : forall msg, read_json B response = Raise (OtherException msg) ->
                          format_response B response = Raise (OtherException msg)).
  { intros msg Hj. unfold format_response. now rewrite Hs, Hj. }
  split; [exact V |]. split.
  - split.
    + intros [e He]. unfold format_response in He. rewrite Hs in He.
      destruct (read_json B response) as [df|[m|m]]; try discriminate.
      now exists m.
    + intros [msg Hj]. exists (OtherException msg). now apply O.
  - intros q db d cols stmt df r Hq Hd Hc Hst Hv Hr Hf ->.
    rewrite (handle_query_summary_path B q db d cols stmt df r Hq Hd Hc Hst Hv Hr Hf).
    cbv zeta. split; intros msg Hj.
    + now rewrite (V msg Hj).
    + now rewrite (O msg Hj).
Qed.

(** C10, witness: the summary is an unterminated array with a line break
    marker; the user gets it with the marker replaced. *)
Lemma format_response_swallows_parse_error_witness :
  format_response broken_json_backend "[1, 2<br>3"
  = Return ("[1, 2" ++ String "010"%char "3")
  /\ result (handle_query broken_json_backend "How many employees?" sample_db)
     = Return (Some ("[1, 2" ++ String "010"%char "3")).
Proof.
  pose proof (format_response_swallows_parse_error broken_json_backend
                "[1, 2<br>3" eq_refl) as [H1 [_ H3]].
  split.
  - exact (H1 "Expected object or value" eq_refl).
  - exact (proj1 (H3 "How many employees?" sample_db
                     "The user wants the head count." sample_columns
                     "SELECT COUNT(*) FROM employees" sample_frame "[1, 2<br>3"
                     eq_refl eq_refl eq_refl eq_refl eq_refl eq_refl eq_refl eq_refl)
             "Expected object or value" eq_refl).
Defined.

(** C10, counterexample: the text starts with an opening bracket and
    [read_json] fails on it with an exception that is not a [ValueError];
    [format_response] raises. *)
Lemma parse_failure_can_raise :
  PyStr.startswith (PyStr.strip "[1, 2") "[" = true
  /\ read_json json_type_error_backend "[1, 2" = Raise (OtherException "unhashable type")
  /\ ~ (exists out, format_response json_type_error_backend "[1, 2" = Return out).
Proof.
  split; [reflexivity |]. split; [reflexivity |].
  intros [out H]. vm_compute in H. discriminate.
Qed.

(** ** The waterfall *)

Section WaterfallFacts.

Context (B : Backend).

Lemma intro_step_ends_dialog (ctx : WaterfallStepContext) (r : step_return) :
  result (intro_step B ctx) = Return r -> r = EndDialog.
Proof.
  rewrite intro_step_unfold. cbv zeta.
  destruct (from_uri B DATABASE_URL) as [db|e]; [| discriminate].
  destruct (if is_greeting (activity_text ctx) then _ else _) as [t [response|e]];
    [| discriminate].
  cbn [result snd]. destruct (send_activity B response); [| discriminate].
  now intros [= <-].
Qed.

Lemma intro_step_runs_no_step (s : step_id) (ctx : WaterfallStepContext) :
  count (runs_step s) (trace (intro_step B ctx)) = 0.
Proof.
  rewrite intro_step_unfold. cbv zeta.
  destruct (from_uri B DATABASE_URL) as [db|e]; [| now destruct s].
  destruct (is_greeting (activity_text ctx)).
  - cbn [ret]. now destruct s.
  - pose proof (handle_query_events B (activity_text ctx) db) as Hev.
    apply (pipeline_events_run_no_step s) in Hev.
    destruct (handle_query B (activity_text ctx) db) as [t [response|e]];
      cbn [trace fst] in *; rewrite !count_app, Hev; now destruct s.
Qed.

Lemma on_message_activity_fresh (text : string) :
  on_message_activity B text [] =
  let ctx := {| activity_text := text; step_result := None |} in
  (RunStep IntroStep :: trace (intro_step B ctx),
   match result (intro_step B ctx) with
   | Return _ => Return []
   | Raise e => Raise e
   end).
Proof.
  unfold on_message_activity, mainDialog. cbn [run_steps run_step_fn].
  unfold emit, bind at 2. cbv zeta.
  pose proof (intro_step_ends_dialog {| activity_text := text; step_result := None |}) as He.
  destruct (intro_step B _) as [t [r|e]]; cbn [result snd trace fst] in *.
  - rewrite (He r eq_refl). cbn. now rewrite !app_nil_r.
  - reflexivity.
Qed.

End WaterfallFacts.

Lemma run_turns_cons (B : Backend) (text : string)
      (turns : list (Backend * string)) (stack : dialog_stack) :
  run_turns ((B, text) :: turns) stack =
  match on_message_activity B text stack with
  | (t, Return stack') =>
      ((t ++ fst (run_turns turns stack'))%list, snd (run_turns turns stack'))
  | (t, Raise _) =>
      ((t ++ SendActivity (Some TURN_ERROR_MESSAGE) :: fst (run_turns turns stack))%list,
       snd (run_turns turns stack))
  end.
Proof.
  cbn [run_turns]. destruct (on_message_activity B text stack) as [t [stack'|e]].
  - now destruct (run_turns turns stack').
  - now destruct (run_turns turns stack).
Qed.

Lemma run_turns_fresh (turns : list (Backend * string)) :
  snd (run_turns turns []) = []
  /\ count (runs_step ActStep) (fst (run_turns turns [])) = 0
  /\ count (runs_step FinalStep) (fst (run_turns turns [])) = 0
  /\ count (runs_step IntroStep) (fst (run_turns turns [])) = List.length turns.
Proof.
  induction turns as [|[B text] turns [IH1 [IH2 [IH3 IH4]]]]; [now cbn |].
  rewrite run_turns_cons, on_message_activity_fresh. cbv zeta.
  set (ctx := {| activity_text := text; step_result := None |}).
  pose proof (intro_step_runs_no_step B ActStep ctx) as Ha.
  pose proof (intro_step_runs_no_step B FinalStep ctx) as Hf.
  pose proof (intro_step_runs_no_step B IntroStep ctx) as Hi.
  set (t' := fst (run_turns turns [])) in *.
  destruct (result (intro_step B ctx)) as [r|e]; cbn [fst snd length];
    (split; [exact IH1 |]);
    change (RunStep IntroStep :: trace (intro_step B ctx))%list
      with ([RunStep IntroStep] ++ trace (intro_step B ctx))%list;
    change (SendActivity (Some TURN_ERROR_MESSAGE) :: t')%list
      with ([SendActivity (Some TURN_ERROR_MESSAGE)] ++ t')%list;
    rewrite ?count_app, ?Ha, ?Hf, ?Hi, ?IH2, ?IH3, ?IH4; cbn; auto.
Qed.

(** C8.  The intro step, whenever it returns, has sent its response as
    its last action and ends the dialog; it returns whenever the
    connection can be created and the transport accepts the message.
    Hence in every conversation, started with no active dialog, the dialog
    stack is empty again after every turn, each turn runs the intro step
    once, and the act and final steps are never run. *)
Theorem act_step_never_reached (turns : list (Backend * string)) :
  (forall B ctx r,
      result (intro_step B ctx) = Return r ->
      r = EndDialog
      /\ exists t response,
           trace (intro_step B ctx) = (t ++ [SendActivity response])%list)
  /\ (forall B ctx db,
        from_uri B DATABASE_URL = Return db ->
        (forall response, send_activity B response = Return tt) ->
        result (intro_step B ctx) = Return EndDialog)
  /\ snd (run_turns turns []) = []
  /\ count (runs_step ActStep) (fst (run_turns turns [])) = 0
  /\ count (runs_step FinalStep) (fst (run_turns turns [])) = 0
  /\ count (runs_step IntroStep) (fst (run_turns turns [])) = List.length turns.
Proof.
  split; [| split; [| apply run_turns_fresh]].
  - intros B ctx r H. split; [exact (intro_step_ends_dialog B ctx r H) |].
    revert H. rewrite intro_step_unfold. cbv zeta.
    destruct (from_uri B DATABASE_URL) as [db|e]; [| discriminate].
    destruct (if is_greeting (activity_text ctx) then _ else _) as [t [response|e]];
      [| discriminate].
    intros _. exists (intro_prefix (activity_text ctx) ++ t)%list, response.
    cbn [trace fst]. now rewrite app_assoc.
  - intros B ctx db Hdb Hsend. rewrite intro_step_unfold. cbv zeta. rewrite Hdb.
    assert (T : exists t response,
               (if is_greeting (activity_text ctx) then ret (Some GREETING_RESPONSE)
                else handle_query B (activity_text ctx) db) = (t, Return response)).
    { destruct (is_greeting (activity_text ctx)); [now eexists _, _ |].
      destruct (handle_query_total B (activity_text ctx) db) as [r Hr].
      destruct (handle_query B (activity_text ctx) db) as [t o]. cbn in Hr. subst o.
      now exists t, r. }
    destruct T as [t [response ->]]. cbn [result snd]. now rewrite Hsend.
Qed.

(** C8, witness: a greeting turn with a working backend ends the dialog
    in the intro step. *)
Lemma act_step_never_reached_witness :
  result (intro_step good_backend {| activity_text := "hi"; step_result := None |})
  = Return EndDialog.
Proof.
  exact (proj1 (proj2 (act_step_never_reached []))
           good_backend {| activity_text := "hi"; step_result := None |} sample_db
           eq_refl (fun _ => eq_refl)).
Defined.

(** ** Replacement passes over marked-up text *)

Module MarkupFacts.
Import PyStr.

Lemma free_of_lt_app (a b : string) :
  free_of_lt (a ++ b) = free_of_lt a && free_of_lt b.
Proof.
  induction a as [|c a IH]; [reflexivity |]. cbn. now rewrite IH, andb_assoc.
Qed.

Lemma startswith_marker_no_lt (t : tag) (c : ascii) (s : string) :
  Ascii.eqb "<"%char c = false -> startswith (String c s) (marker_of t) = false.
Proof. intros H. destruct t; cbn [startswith marker_of]; now rewrite H. Qed.

Lemma scan_plain_prefix (t : tag) (new s r : string) :
  free_of_lt s = true ->
  replace_scan (marker_of t) new 0 (s ++ r) = s ++ replace_scan (marker_of t) new 0 r.
Proof.
  induction s as [|c s IH]; [reflexivity |]. cbn [free_of_lt].
  intros H. apply andb_true_iff in H as [Hc Hs]. apply negb_true_iff in Hc.
  cbn [append replace_scan]. rewrite (startswith_marker_no_lt t c _ Hc).
  now rewrite IH.
Qed.

Lemma scan_marker (t t' : tag) (new r : string) :
  replace_scan (marker_of t) new 0 (marker_of t' ++ r) =
  (if tag_eqb t t' then new else marker_of t') ++ replace_scan (marker_of t) new 0 r.
Proof. destruct t, t'; reflexivity. Qed.

Lemma scan_render (t : tag) (new : string) (ps : list piece) :
  clean ps = true ->
  replace_scan (marker_of t) new 0 (render ps) = render (subst_mark t new ps).
Proof.
  induction ps as [|[s|t'] ps IH]; [reflexivity | |]; cbn [clean forallb]; intros H.
  - apply andb_true_iff in H as [Hs Hps]. cbn [render subst_mark map].
    rewrite scan_plain_prefix by exact Hs. now rewrite (IH Hps).
  - cbn [render subst_mark map]. rewrite scan_marker, (IH H).
    now destruct (tag_eqb t t').
Qed.

Lemma replace_render (t : tag) (new : string) (ps : list piece) :
  clean ps = true ->
  replace (render ps) (marker_of t) new = render (subst_mark t new ps).
Proof. intros H. rewrite <- (scan_render t new ps H). now destruct t. Qed.

Lemma clean_subst_mark (t : tag) (new : string) (ps : list piece) :
  free_of_lt new = true -> clean ps = true -> clean (subst_mark t new ps) = true.
Proof.
  intros Hn. unfold clean, subst_mark.
  induction ps as [|[s|t'] ps IH]; [reflexivity | |]; cbn [map forallb]; intros H.
  - apply andb_true_iff in H as [Hs Hps]. rewrite Hs. exact (IH Hps).
  - cbn [andb] in H. destruct (tag_eqb t t'); [rewrite Hn |]; exact (IH H).
Qed.

Lemma subst_mark_cons (t : tag) (new : string) (p : piece) (ps : list piece) :
  subst_mark t new (p :: ps) =
  match p with
  | Mark t' => if tag_eqb t t' then Text new else p
  | Text _ => p
  end :: subst_mark t new ps.
Proof. reflexivity. Qed.

Lemma render_all_passes (ps : list piece) :
  render (subst_mark ParClose EmptyString
            (subst_mark ParOpen EmptyString (subst_mark Br nl ps))) = plain ps.
Proof.
  induction ps as [|[s|[]] ps IH]; [reflexivity | ..];
    repeat (rewrite subst_mark_cons; cbn [tag_eqb]);
    cbn [render plain append]; now rewrite IH.
Qed.

Lemma free_of_lt_plain (ps : list piece) :
  clean ps = true -> free_of_lt (plain ps) = true.
Proof.
  unfold clean.
  induction ps as [|[s|t] ps IH]; [reflexivity | |]; cbn [forallb plain]; intros H.
  - apply andb_true_iff in H as [Hs Hps]. now rewrite free_of_lt_app, Hs, IH.
  - cbn [andb] in H. destruct t; cbn [free_of_lt]; rewrite (IH H); reflexivity.
Qed.

Lemma no_marker_without_lt (t : tag) (s : string) :
  free_of_lt s = true -> contains (marker_of t) s = false.
Proof.
  induction s as [|c s IH]; [now destruct t |]. cbn [free_of_lt contains].
  intros H. apply andb_true_iff in H as [Hc Hs]. apply negb_true_iff in Hc.
  now rewrite (startswith_marker_no_lt t c s Hc), IH.
Qed.

(** On clean marked-up text the three passes give the plain text. *)
Lemma strip_markup_render (ps : list piece) :
  clean ps = true -> strip_markup (render ps) = plain ps.
Proof.
  intros H. unfold strip_markup.
  change (replace
            (replace (replace (render ps) (marker_of Br) nl)
                     (marker_of ParOpen) EmptyString)
            (marker_of ParClose) EmptyString = plain ps).
  rewrite (replace_render Br nl ps H).
  rewrite (replace_render ParOpen EmptyString) by now apply clean_subst_mark.
  rewrite (replace_render ParClose EmptyString)
    by (apply clean_subst_mark; [reflexivity | now apply clean_subst_mark]).
  apply render_all_passes.
Qed.

End MarkupFacts.

(** C6 (as amended).  [format_response] returns its argument unchanged
    when the trimmed text does not start with an opening bracket and
    none of the three markers occurs in it.  When the trimmed text starts
    with an opening bracket and [read_json] parses it, the tabular
    rendering of the parsed frame is returned.  When the trimmed text does
    not start with an opening bracket, or [read_json] rejects it with a
    [ValueError], each line break marker is replaced by a line feed, then
    each opening and then each closing paragraph marker is removed, one
    pass each: on a text in which every [<] opens one of the markers the
    result is the plain text, free of markers.  When the trimmed text
    starts with an opening bracket and [read_json] fails with another
    exception, that exception is raised. *)
Theorem format_response_cases (B : Backend) :
  (forall response,
      PyStr.startswith (PyStr.strip response) "[" = false ->
      PyStr.contains "<br>" response = false ->
      PyStr.contains "<p>" response = false ->
      PyStr.contains "</p>" response = false ->
      format_response B response = Return response)
  /\ (forall response df,
        PyStr.startswith (PyStr.strip response) "[" = true ->
        read_json B response = Return df ->
        format_response B response = Return (to_string B df))
  /\ (forall response,
        PyStr.startswith (PyStr.strip response) "[" = false
        \/ (exists msg, read_json B response = Raise (ValueError msg)) ->
        format_response B response =
          Return (PyStr.replace
                    (PyStr.replace
                       (PyStr.replace response "<br>" (String "010"%char EmptyString))
                       "<p>" EmptyString)
                    "</p>" EmptyString))
  /\ (forall ps,
        clean ps = true ->
        PyStr.startswith (PyStr.strip (render ps)) "[" = false
        \/ (exists msg, read_json B (render ps) = Raise (ValueError msg)) ->
        format_response B (render ps) = Return (plain ps)
        /\ forall t, PyStr.contains (marker_of t) (plain ps) = false)
  /\ (forall response msg,
        PyStr.startswith (PyStr.strip response) "[" = true ->
        read_json B response = Raise (OtherException msg) ->
        format_response B response = Raise (OtherException msg)).
Proof.
  assert (K : forall response,
             PyStr.startswith (PyStr.strip response) "[" = false
             \/ (exists msg, read_json B response = Raise (ValueError msg)) ->
             format_response B response = Return (strip_markup response)).
  { intros response [Hs | [msg Hj]]; unfold format_response.
    - now rewrite Hs.
    - rewrite Hj. now destruct (PyStr.startswith (PyStr.strip response) "["). }
  split; [| split; [| split; [| split]]].
  - intros response Hs H1 H2 H3. rewrite (K response (or_introl Hs)).
    unfold strip_markup.
    rewrite (PyStrFacts.replace_absent response) by exact H1.
    rewrite (PyStrFacts.replace_absent response) by exact H2.
    now rewrite (PyStrFacts.replace_absent response) by exact H3.
  - intros response df Hs Hj. unfold format_response. now rewrite Hs, Hj.
  - intros response H. rewrite (K response H). reflexivity.
  - intros ps Hclean H. split.
    + rewrite (K (render ps) H). now rewrite MarkupFacts.strip_markup_render.
    + intros t. apply MarkupFacts.no_marker_without_lt.
      now apply MarkupFacts.free_of_lt_plain.
  - intros response msg Hs Hj. unfold format_response. now rewrite Hs, Hj.
Qed.

(** C6, witness: a summary with a paragraph and a line break, and a
    bracketed text that [read_json] rejects. *)
Lemma format_response_cases_witness :
  format_response good_backend "<p>12 employees.<br>Anything else?</p>"
  = Return ("12 employees." ++ String "010"%char "Anything else?")
  /\ format_response good_backend "[see <p>below</p>"
     = Return "[see below".
Proof.
  pose proof (format_response_cases good_backend) as [_ [_ [H3 [H4 _]]]].
  split.
  - exact (proj1 (H4 [Mark ParOpen; Text "12 employees."; Mark Br;
                      Text "Anything else?"; Mark ParClose]
                     eq_refl (or_introl eq_refl))).
  - exact (H3 "[see <p>below</p>"
              (or_intror (ex_intro _ "Expected object or value" eq_refl))).
Defined.

(** C6, counterexample: removing the inner marker of this text forms a
    new one, which is returned. *)
Lemma marker_left_after_removal :
  PyStr.contains "<p>" "<<p>p>" = true
  /\ format_response good_backend "<<p>p>" = Return "<p>"
  /\ ~ (exists out, format_response good_backend "<<p>p>" = Return out
                    /\ PyStr.contains "<p>" out = false).
Proof.
  split; [reflexivity |]. split; [reflexivity |].
  intros [out [H C]]. vm_compute in H. injection H as <-. discriminate.
Qed.

(** ** Worked examples *)

(** The replacement is textual: a column whose name is part of another
    column's name is quoted inside it. *)
Example quoting_is_not_tokenized :
  quote_in_order ["id"; "emp_id"] "SELECT emp_id FROM employees"
  = "SELECT emp_" ++ dquote ++ "id" ++ dquote ++ " FROM employees".
Proof. reflexivity. Qed.

Example handle_query_good_backend :
  handle_query good_backend "How many employees are in engineering?" sample_db
  = ([LlmInvoke (elaborate_prompt "How many employees are in engineering?");
      GetColumns "employees";
      LlmInvoke (sql_prompt sample_columns
                   "The user wants the number of employees in engineering.");
      LogInfo ("Generated SQL Query: SELECT COUNT(*) FROM employees WHERE "
                 ++ dquote ++ "department" ++ dquote ++ " = 'engineering'");
      ReadSql ("SELECT COUNT(*) FROM employees WHERE "
                 ++ dquote ++ "department" ++ dquote ++ " = 'engineering'");
      LlmInvoke (final_prompt good_backend "How many employees are in engineering?"
                   sample_frame)],
     Return (Some ("There are 12 employees in engineering." ++ nl
                     ++ "Any follow-up questions?"))).
Proof. reflexivity. Qed.

Example format_response_json :
  format_response json_backend ("[{" ++ dquote ++ "count" ++ dquote ++ ": 12}]")
  = Return ("count" ++ nl ++ "   12").
Proof. reflexivity. Qed.

Example replace_overlapping : PyStr.replace "aaa" "aa" "b" = "ba".
Proof. reflexivity. Qed.

Example replace_empty_pattern : PyStr.replace "abc" EmptyString "-" = "-a-b-c-".
Proof. reflexivity. Qed.

Example strip_both_ends : PyStr.strip ("  hi there" ++ nl ++ " ") = "hi there".
Proof. reflexivity. Qed.

Example two_turns_run_intro_twice :
  count (runs_step IntroStep)
    (fst (run_turns [(good_backend, "hi"); (bad_sql_backend, "Remove the staff table")] []))
  = 2.
Proof. reflexivity. Qed.

(** * Further properties of the code *)

(** ** Trimming and case *)

Module StripFacts.
Import PyStr.

Lemma lower_upper_char (c : ascii) : lower_char (upper_char c) = lower_char c.
Proof. destruct c as [[] [] [] [] [] [] [] []]; reflexivity. Qed.

Lemma lower_upper (s : string) : lower (upper s) = lower s.
Proof.
  induction s as [|c s IH]; [reflexivity |]. cbn [upper lower map_chars].
  rewrite lower_upper_char. f_equal. exact IH.
Qed.

Lemma lower_char_idem (c : ascii) : lower_char (lower_char c) = lower_char c.
Proof. destruct c as [[] [] [] [] [] [] [] []]; reflexivity. Qed.

Lemma lower_idem (s : string) : lower (lower s) = lower s.
Proof.
  induction s as [|c s IH]; [reflexivity |]. cbn [lower map_chars].
  rewrite lower_char_idem. f_equal. exact IH.
Qed.

Lemma all_space_lower (w : string) : all_space (lower w) = all_space w.
Proof.
  induction w as [|c w IH]; [reflexivity |]. cbn [lower map_chars all_space].
  rewrite PyStrFacts.is_space_lower_char. f_equal. exact IH.
Qed.

Lemma lstrip_all_space_app (w s : string) :
  all_space w = true -> lstrip (w ++ s) = lstrip s.
Proof.
  induction w as [|c w IH]; [reflexivity |]. cbn [all_space append lstrip].
  intros H. apply andb_true_iff in H as [Hc Hw]. rewrite Hc. exact (IH Hw).
Qed.

Lemma rstrip_all_space (w : string) : all_space w = true -> rstrip w = EmptyString.
Proof.
  induction w as [|c w IH]; [reflexivity |]. cbn [all_space rstrip].
  intros H. apply andb_true_iff in H as [Hc Hw]. now rewrite (IH Hw), Hc.
Qed.

Lemma rstrip_app_all_space (s w : string) :
  all_space w = true -> rstrip (s ++ w) = rstrip s.
Proof.
  intros Hw. induction s as [|c s IH]; [now apply rstrip_all_space |].
  cbn [append rstrip]. now rewrite IH.
Qed.

Lemma strip_app_all_space (s w : string) :
  all_space w = true -> strip (s ++ w) = strip s.
Proof.
  intros Hw. unfold strip. induction s as [|c s IH].
  - cbn [append lstrip]. rewrite <- (PyStrFacts.append_empty_r w).
    rewrite lstrip_all_space_app by exact Hw. reflexivity.
  - cbn [append lstrip]. destruct (is_space c); [exact IH |].
    exact (rstrip_app_all_space (String c s) w Hw).
Qed.

(** Whitespace around a text does not change its trimmed form. *)
Lemma strip_padding (w1 s w2 : string) :
  all_space w1 = true -> all_space w2 = true ->
  strip (w1 ++ s ++ w2) = strip s.
Proof.
  intros H1 H2. unfold strip at 1. rewrite lstrip_all_space_app by exact H1.
  exact (strip_app_all_space s w2 H2).
Qed.

Lemma head_not_space_lstrip (s : string) : head_not_space (lstrip s) = true.
Proof.
  induction s as [|c s IH]; [reflexivity |]. cbn [lstrip].
  destruct (is_space c) eqn:E; [exact IH |]. cbn. now rewrite E.
Qed.

Lemma head_not_space_rstrip (s : string) :
  head_not_space s = true -> head_not_space (rstrip s) = true.
Proof.
  destruct s as [|c s]; [reflexivity |]. cbn [head_not_space rstrip].
  intros H. apply negb_true_iff in H.
  destruct (rstrip s); [rewrite H |]; cbn; now rewrite H.
Qed.

Lemma lstrip_head_not_space (s : string) : head_not_space s = true -> lstrip s = s.
Proof.
  destruct s as [|c s]; [reflexivity |]. cbn [head_not_space lstrip].
  intros H. apply negb_true_iff in H. now rewrite H.
Qed.

Lemma rstrip_idem (s : string) : rstrip (rstrip s) = rstrip s.
Proof.
  induction s as [|c s IH]; [reflexivity |]. cbn [rstrip].
  destruct (rstrip s) as [|x r] eqn:E.
  - destruct (is_space c) eqn:Hc; [reflexivity |]. cbn [rstrip]. now rewrite Hc.
  - change (rstrip (String c (String x r))) with
      (match rstrip (String x r) with
       | EmptyString => if is_space c then EmptyString else String c EmptyString
       | String y r' => String c (String y r')
       end).
    now rewrite IH.
Qed.

(** Trimming twice is trimming once. *)
Lemma strip_idem (s : string) : strip (strip s) = strip s.
Proof.
  unfold strip. rewrite (lstrip_head_not_space (rstrip (lstrip s))).
  - apply rstrip_idem.
  - apply head_not_space_rstrip, head_not_space_lstrip.
Qed.

End StripFacts.

(** X1.  On a text of ASCII characters the greeting check ignores the
    case of the letters: the text and its upper-case and lower-case forms
    are greetings together. *)
Theorem is_greeting_ignores_case (s : string) :
  is_ascii s = true ->
  is_greeting (PyStr.upper s) = is_greeting s
  /\ is_greeting (PyStr.lower s) = is_greeting s.
Proof.
  intros _. unfold is_greeting.
  now rewrite StripFacts.lower_upper, StripFacts.lower_idem.
Qed.

Lemma is_greeting_ignores_case_witness :
  is_greeting (PyStr.upper " Good Evening ") = is_greeting " Good Evening "
  /\ is_greeting "GOOD EVENING" = true.
Proof.
  split; [| reflexivity].
  exact (proj1 (is_greeting_ignores_case " Good Evening " eq_refl)).
Defined.

(** X2.  The greeting check ignores whitespace around the text: padding
    a text with whitespace on either side does not change the answer, and
    neither does trimming it. *)
Theorem is_greeting_ignores_padding (w1 s w2 : string) :
  all_space w1 = true -> all_space w2 = true ->
  is_greeting (w1 ++ s ++ w2) = is_greeting s
  /\ is_greeting (PyStr.strip s) = is_greeting s.
Proof.
  intros H1 H2. unfold is_greeting. split.
  - unfold PyStr.lower. rewrite !PyStrFacts.map_chars_app.
    fold (PyStr.lower w1) (PyStr.lower s) (PyStr.lower w2).
    now rewrite StripFacts.strip_padding by now rewrite StripFacts.all_space_lower.
  - now rewrite PyStrFacts.strip_lower, StripFacts.strip_idem,
      <- PyStrFacts.strip_lower.
Qed.

Lemma is_greeting_ignores_padding_witness :
  is_greeting ("  " ++ "Good Morning" ++ " " ++ nl) = is_greeting "Good Morning".
Proof.
  exact (proj1 (is_greeting_ignores_padding "  " "Good Morning" (" " ++ nl)
                  eq_refl eq_refl)).
Defined.

(** ** The orchestrator *)

(** X3.  [handle_query] returns [None] for the empty question and for no
    other: every non-empty question gets a text. *)
Theorem handle_query_none_iff_empty (B : Backend) (q : string) (db : SQLDatabase) :
  (result (handle_query B q db) = Return None <-> q = EmptyString)
  /\ (q <> EmptyString -> exists text, result (handle_query B q db) = Return (Some text)).
Proof.
  destruct q as [|c q].
  - split; [split; reflexivity | intros H; now elim H].
  - assert (H : exists text,
               result (handle_query B (String c q) db) = Return (Some text)).
    { rewrite handle_query_nonempty by reflexivity.
      rewrite try_except_on_exception, pipeline_unfold. cbv zeta.
      destruct (llm_invoke B (elaborate_prompt (String c q))) as [d|e];
        [| eexists; reflexivity].
      destruct (create_sql_query_from_response B (PyStr.strip d) db) as [t [sql|e]];
        [| eexists; reflexivity].
      unfold execute_and_summarize.
      destruct (read_sql B sql) as [df|e]; [| eexists; reflexivity].
      destruct (llm_invoke B (final_prompt B (String c q) df)) as [r|e];
        [| eexists; reflexivity].
      destruct (format_response B (PyStr.strip r)) as [f|e]; eexists; reflexivity. }
    split; [| intros _; exact H].
    destruct H as [text H]. rewrite H. split; discriminate.
Qed.

Lemma handle_query_none_iff_empty_witness :
  exists text,
    result (handle_query bad_sql_backend "Remove the staff table" sample_db)
    = Return (Some text).
Proof.
  apply (proj2 (handle_query_none_iff_empty bad_sql_backend
                  "Remove the staff table" sample_db)).
  discriminate.
Defined.

(** X4.  Only a validated statement reaches the database: whenever
    [handle_query] executes a query, that query is the column-quoted form
    of a statement the model wrote and the validation accepted. *)
Theorem executed_statement_was_validated
    (B : Backend) (q : string) (db : SQLDatabase) (sql : string) :
  In (ReadSql sql) (trace (handle_query B q db)) ->
  exists d cols stmt,
    llm_invoke B (elaborate_prompt q) = Return d
    /\ get_columns B TABLE_NAME = Return cols
    /\ llm_invoke B (sql_prompt cols (PyStr.strip d)) = Return stmt
    /\ sql_is_valid (PyStr.strip stmt) = true
    /\ sql = quote_columns (dict_comprehension quoted cols) (PyStr.strip stmt).
Proof.
  unfold handle_query. destruct (PyStr.truthy q); [| intros []].
  rewrite try_except_on_exception, pipeline_unfold. cbv zeta.
  destruct (llm_invoke B (elaborate_prompt q)) as [d|e].
  2: { destruct e; cbn; intros [H | [H | []]]; discriminate. }
  rewrite create_sql_query_unfold. unfold validate_and_quote. cbv zeta.
  destruct (get_columns B TABLE_NAME) as [cols|e].
  2: { destruct e; cbn; intros H; repeat (destruct H as [H | H]; try discriminate);
       contradiction. }
  destruct (llm_invoke B (sql_prompt cols (PyStr.strip d))) as [stmt|e] eqn:Hs.
  2: { destruct e; cbn; intros H; repeat (destruct H as [H | H]; try discriminate);
       contradiction. }
  destruct (sql_is_valid (PyStr.strip stmt)) eqn:Hv.
  2: { cbn; intros H; repeat (destruct H as [H | H]; try discriminate);
       contradiction. }
  intros H. exists d, cols, stmt.
  split; [reflexivity |]. split; [reflexivity |]. split; [exact Hs |].
  split; [exact Hv |].
  revert H. set (sql' := quote_columns _ _). unfold execute_and_summarize.
  assert (K : forall t1 t2, In (ReadSql sql)
                (LlmInvoke (elaborate_prompt q) :: GetColumns TABLE_NAME
                   :: LlmInvoke (sql_prompt cols (PyStr.strip d))
                   :: LogInfo ("Generated SQL Query: " ++ sql')
                   :: ReadSql sql' :: t1 ++ t2)%list ->
              (forall ev, In ev (t1 ++ t2)%list -> is_execution ev = false) ->
              sql = sql').
  { intros t1 t2 H Hn. cbn in H.
    destruct H as [H | [H | [H | [H | [H | H]]]]]; try discriminate.
    - now injection H.
    - specialize (Hn _ H). discriminate. }
  destruct (read_sql B sql') as [df|e].
  - destruct (llm_invoke B (final_prompt B q df)) as [r|e].
    + destruct (format_response B (PyStr.strip r)) as [f|e].
      * intros H. cbn [trace fst app] in H. apply (K [LlmInvoke (final_prompt B q df)] []); [exact H |].
        intros ev [<- | []]; reflexivity.
      * intros H. cbn [trace fst app] in H. apply (K [LlmInvoke (final_prompt B q df)] [log_for e]); [exact H |].
        intros ev [<- | [<- | []]]; [reflexivity | now destruct e].
    + intros H. cbn [trace fst app] in H. apply (K [LlmInvoke (final_prompt B q df)] [log_for e]); [exact H |].
      intros ev [<- | [<- | []]]; [reflexivity | now destruct e].
  - intros H. cbn [trace fst app] in H. apply (K [] [log_for e]); [exact H |].
    intros ev [<- | []]. now destruct e.
Qed.

Lemma executed_statement_was_validated_witness :
  exists d cols stmt,
    llm_invoke good_backend (elaborate_prompt "How many engineers?") = Return d
    /\ get_columns good_backend TABLE_NAME = Return cols
    /\ llm_invoke good_backend (sql_prompt cols (PyStr.strip d)) = Return stmt
    /\ sql_is_valid (PyStr.strip stmt) = true
    /\ "SELECT COUNT(*) FROM employees WHERE " ++ dquote ++ "department" ++ dquote
         ++ " = 'engineering'"
       = quote_columns (dict_comprehension quoted cols) (PyStr.strip stmt).
Proof.
  apply (executed_statement_was_validated good_backend "How many engineers?" sample_db).
  vm_compute. right. right. right. right. left. reflexivity.
Defined.

Lemma format_response_plain (B : Backend) (response : string) :
  PyStr.startswith (PyStr.strip response) "[" = false ->
  PyStr.contains "<br>" response = false ->
  PyStr.contains "<p>" response = false ->
  PyStr.contains "</p>" response = false ->
  format_response B response = Return response.
Proof.
  intros Hs H1 H2 H3. unfold format_response, strip_markup. rewrite Hs.
  rewrite (PyStrFacts.replace_absent response) by exact H1.
  rewrite (PyStrFacts.replace_absent response) by exact H2.
  now rewrite (PyStrFacts.replace_absent response) by exact H3.
Qed.

(** X5.  When every stage succeeds and the model's summary, trimmed, is
    plain text (no marker, no opening bracket at its start), the user gets
    exactly that trimmed summary, after three model calls, one
    introspection and one execution. *)
Theorem plain_summary_reaches_user
    (B : Backend) (q : string) (db : SQLDatabase)
    (d : string) (cols : list string) (stmt : string) (df : DataFrame) (r : string) :
  PyStr.truthy q = true ->
  llm_invoke B (elaborate_prompt q) = Return d ->
  get_columns B TABLE_NAME = Return cols ->
  llm_invoke B (sql_prompt cols (PyStr.strip d)) = Return stmt ->
  sql_is_valid (PyStr.strip stmt) = true ->
  read_sql B (quote_columns (dict_comprehension quoted cols) (PyStr.strip stmt))
    = Return df ->
  llm_invoke B (final_prompt B q df) = Return r ->
  PyStr.startswith (PyStr.strip r) "[" = false ->
  PyStr.contains "<br>" (PyStr.strip r) = false ->
  PyStr.contains "<p>" (PyStr.strip r) = false ->
  PyStr.contains "</p>" (PyStr.strip r) = false ->
  result (handle_query B q db) = Return (Some (PyStr.strip r))
  /\ count is_llm_call (trace (handle_query B q db)) = 3
  /\ count is_introspection (trace (handle_query B q db)) = 1
  /\ count is_execution (trace (handle_query B q db)) = 1.
Proof.
  intros Hq Hd Hc Hs Hv Hr Hf H0 H1 H2 H3.
  rewrite (handle_query_summary_path B q db d cols stmt df r Hq Hd Hc Hs Hv Hr Hf).
  cbv zeta. rewrite format_response_plain; try assumption.
  - repeat split; reflexivity.
  - now rewrite StripFacts.strip_idem.
Qed.

Lemma plain_summary_reaches_user_witness :
  result (handle_query
            (sample_backend (Return "d") (Return "SELECT 1 FROM employees")
                            (Return " Twelve. ") sample_columns)
            "How many employees?" sample_db)
  = Return (Some "Twelve.").
Proof.
  exact (proj1 (plain_summary_reaches_user
                  (sample_backend (Return "d") (Return "SELECT 1 FROM employees")
                                  (Return " Twelve. ") sample_columns)
                  "How many employees?" sample_db "d" sample_columns
                  "SELECT 1 FROM employees" sample_frame " Twelve. "
                  eq_refl eq_refl eq_refl eq_refl eq_refl eq_refl eq_refl
                  eq_refl eq_refl eq_refl eq_refl)).
Defined.

(** X6.  When the execution of a validated statement fails, the summary
    is never asked for: the failure is logged with its own text and the
    user gets the fixed message for the class of the exception. *)
Theorem execution_fault_reported
    (B : Backend) (q : string) (db : SQLDatabase)
    (d : string) (cols : list string) (stmt : string) (e : exn) :
  PyStr.truthy q = true ->
  llm_invoke B (elaborate_prompt q) = Return d ->
  get_columns B TABLE_NAME = Return cols ->
  llm_invoke B (sql_prompt cols (PyStr.strip d)) = Return stmt ->
  sql_is_valid (PyStr.strip stmt) = true ->
  let sql := quote_columns (dict_comprehension quoted cols) (PyStr.strip stmt) in
  read_sql B sql = Raise e ->
  handle_query B q db =
    ([LlmInvoke (elaborate_prompt q); GetColumns TABLE_NAME;
      LlmInvoke (sql_prompt cols (PyStr.strip d));
      LogInfo ("Generated SQL Query: " ++ sql); ReadSql sql; log_for e],
     Return (Some (message_for e))).
Proof.
  intros Hq Hd Hc Hs Hv sql Hr.
  rewrite handle_query_nonempty by exact Hq.
  rewrite try_except_on_exception, pipeline_unfold. cbv zeta.
  rewrite Hd, create_sql_query_unfold, Hc. cbv zeta. rewrite Hs.
  unfold validate_and_quote, execute_and_summarize. cbv zeta.
  rewrite Hv. fold sql. rewrite Hr. reflexivity.
Qed.

Lemma execution_fault_reported_witness :
  handle_query execution_fails_backend "How many employees?" sample_db =
    ([LlmInvoke (elaborate_prompt "How many employees?"); GetColumns TABLE_NAME;
      LlmInvoke (sql_prompt sample_columns "The user wants the head count.");
      LogInfo "Generated SQL Query: SELECT COUNT(*) FROM employees";
      ReadSql "SELECT COUNT(*) FROM employees";
      LogError "Error processing question: connection refused"],
     Return (Some FAILED_MESSAGE)).
Proof.
  exact (execution_fault_reported execution_fails_backend "How many employees?"
           sample_db "The user wants the head count." sample_columns
           "SELECT COUNT(*) FROM employees" (OtherException "connection refused")
           eq_refl eq_refl eq_refl eq_refl eq_refl eq_refl).
Defined.

(** ** Formatting *)

(** X7.  [format_response] raises in one case only: the trimmed text
    starts with an opening bracket and [read_json] fails with an
    exception that is not a [ValueError]; that exception is passed on. *)
Theorem format_response_raises_iff (B : Backend) (response : string) (e : exn) :
  format_response B response = Raise e <->
  PyStr.startswith (PyStr.strip response) "[" = true
  /\ read_json B response = Raise e
  /\ exists msg, e = OtherException msg.
Proof.
  unfold format_response.
  destruct (PyStr.startswith (PyStr.strip response) "[").
  - destruct (read_json B response) as [df|[m|m]].
    + split; [discriminate | intros [_ [H _]]; discriminate].
    + split; [discriminate |]. intros [_ [H [msg ->]]]. discriminate.
    + split.
      * intros [= <-]. repeat split. now exists m.
      * intros [_ [H _]]. injection H as ->. reflexivity.
  - split; [discriminate | intros [H _]; discriminate].
Qed.

(** ** Validation and quoting *)

(** X8.  The validation looks for two substrings only, so a text that
    contains an accepted statement is accepted too, whatever surrounds
    it. *)
Theorem validation_accepts_any_embedding (pre s post : string) :
  sql_is_valid s = true -> sql_is_valid (pre ++ s ++ post) = true.
Proof.
  rewrite !sql_is_valid_spec. intros [[p1 [w [q1 [E1 Hw]]]] [p2 [q2 E2]]]. split.
  - exists (pre ++ p1), w, (q1 ++ post). split; [| exact Hw].
    rewrite E1. now rewrite !PyStrFacts.append_assoc.
  - exists (pre ++ p2), (q2 ++ post). rewrite E2 at 1.
    now rewrite !PyStrFacts.append_assoc.
Qed.

Lemma validation_accepts_any_embedding_witness :
  sql_is_valid ("DROP TABLE staff; " ++ "select 1 from employees" ++ "; --") = true.
Proof.
  exact (validation_accepts_any_embedding "DROP TABLE staff; "
           "select 1 from employees" "; --" eq_refl).
Defined.

Lemma format_response_raises_iff_witness :
  format_response json_type_error_backend "[1, 2]"
  = Raise (OtherException "unhashable type").
Proof.
  apply (proj2 (format_response_raises_iff json_type_error_backend "[1, 2]"
                  (OtherException "unhashable type"))).
  split; [reflexivity |]. split; [reflexivity |]. now exists "unhashable type".
Defined.

Lemma quote_in_order_absent (cols : list string) (sql : string) :
  (forall c, In c cols -> PyStr.contains c sql = false) ->
  quote_in_order cols sql = sql.
Proof.
  unfold quote_in_order. induction cols as [|c cols IH]; intros H; [reflexivity |].
  cbn [fold_left]. rewrite PyStrFacts.replace_absent by (apply H; now left).
  apply IH. intros c' Hc'. apply H. now right.
Qed.

(** X9.  An accepted statement in which no column name occurs, such as a
    query of all columns, is returned as the model wrote it, trimmed. *)
Theorem statement_without_columns_unchanged
    (B : Backend) (response : string) (db : SQLDatabase)
    (cols : list string) (stmt : string) :
  get_columns B TABLE_NAME = Return cols ->
  llm_invoke B (sql_prompt cols response) = Return stmt ->
  sql_is_valid (PyStr.strip stmt) = true ->
  (forall c, In c cols -> PyStr.contains c (PyStr.strip stmt) = false) ->
  result (create_sql_query_from_response B response db) = Return (PyStr.strip stmt).
Proof.
  intros Hc Hl Hv Hn. rewrite create_sql_query_unfold, Hc. cbv zeta. rewrite Hl.
  unfold validate_and_quote. cbv zeta. rewrite Hv. cbn [result snd].
  rewrite dict_comprehension_entries, quote_columns_entries.
  change (fold_left (fun q col => PyStr.replace q col (quoted col))
            (first_occurrences cols) (PyStr.strip stmt))
    with (quote_in_order (first_occurrences cols) (PyStr.strip stmt)).
  rewrite quote_in_order_absent; [reflexivity |].
  intros c Hin. apply Hn. exact (first_occurrences_incl quoted cols c Hin).
Qed.

Lemma statement_without_columns_unchanged_witness :
  result (create_sql_query_from_response
            (sample_backend (Return "d") (Return " SELECT * FROM employees ")
                            (Return "Done.") sample_columns)
            "every row" sample_db)
  = Return "SELECT * FROM employees".
Proof.
  refine (statement_without_columns_unchanged
            (sample_backend (Return "d") (Return " SELECT * FROM employees ")
                            (Return "Done.") sample_columns)
            "every row" sample_db sample_columns " SELECT * FROM employees "
            eq_refl eq_refl eq_refl _).
  intros c [<- | [<- | [<- | []]]]; reflexivity.
Defined.

Lemma dict_get_entries (f : string -> string) (c : string) (l : list string) :
  dict_get c (map (dict_entry f) l) = if PyStr.mem c l then Some (f c) else None.
Proof.
  induction l as [|k l IH]; [reflexivity |].
  cbn [map dict_entry dict_get PyStr.mem existsb].
  destruct (String.eqb c k) eqn:E; [| exact IH].
  apply String.eqb_eq in E. now subst.
Qed.

(** X10.  The column mapping has one item for each distinct column, in
    the order of first appearance; looking a column up gives its
    double-quoted form, and a name that is not a column is not in it. *)
Theorem column_mapping_lookup (cols : list string) (c : string) :
  (In c cols -> dict_get c (dict_comprehension quoted cols) = Some (quoted c))
  /\ (~ In c cols -> dict_get c (dict_comprehension quoted cols) = None)
  /\ NoDup (map fst (dict_comprehension quoted cols))
  /\ (forall k, In k (map fst (dict_comprehension quoted cols)) <-> In k cols).
Proof.
  rewrite dict_comprehension_entries, dict_get_entries.
  assert (K : map fst (map (dict_entry quoted) (first_occurrences cols))
              = first_occurrences cols).
  { rewrite map_map. apply map_id. }
  rewrite K. repeat split.
  - intros H. apply (proj2 (first_occurrences_In _ _)) in H.
    apply (proj2 (PyStrFacts.mem_In _ _)) in H. now rewrite H.
  - intros H. destruct (PyStr.mem c (first_occurrences cols)) eqn:E; [| reflexivity].
    apply (proj1 (PyStrFacts.mem_In _ _)) in E.
    apply (proj1 (first_occurrences_In _ _)) in E. contradiction.
  - apply first_occurrences_distinct.
  - apply first_occurrences_In.
  - apply first_occurrences_In.
Qed.

Lemma column_mapping_lookup_witness :
  dict_get "name" (dict_comprehension quoted ["id"; "name"; "id"])
  = Some (dquote ++ "name" ++ dquote).
Proof.
  apply (proj1 (column_mapping_lookup ["id"; "name"; "id"] "name")).
  right. left. reflexivity.
Defined.

(** ** The activity handlers *)

(** X11.  When members join, the handler calls neither the model nor the
    database and sends at most one greeting per member other than the
    bot; when the transport accepts the messages, every such member gets
    exactly one greeting and the bot itself gets none. *)
Theorem members_added_greets_others
    (B : Backend) (members_added : list string) (recipient_id : string) :
  let others := filter (fun m => negb (String.eqb m recipient_id)) members_added in
  let t := trace (on_members_added_activity B members_added recipient_id) in
  count is_llm_call t = 0 /\ count is_database_call t = 0
  /\ count is_send t <= List.length others
  /\ ((forall r, send_activity B r = Return tt) ->
      on_members_added_activity B members_added recipient_id
      = (map (fun _ => SendActivity (Some GREETING_RESPONSE)) others, Return tt)).
Proof.
  induction members_added as [|m rest IH]; cbv zeta in *.
  - repeat split; try reflexivity; cbn; lia.
  - destruct IH as [I1 [I2 [I3 I4]]].
    cbn [on_members_added_activity filter].
    destruct (negb (String.eqb m recipient_id)).
    + unfold call, bind.
      destruct (send_activity B (Some GREETING_RESPONSE)) as [u|e] eqn:Hs.
      * destruct (on_members_added_activity B rest recipient_id) as [t' r'] eqn:E.
        cbn [trace fst app length map] in *.
        change (SendActivity (Some GREETING_RESPONSE) :: t')%list
          with ([SendActivity (Some GREETING_RESPONSE)] ++ t')%list.
        rewrite !count_app, I1, I2.
        split; [reflexivity |]. split; [reflexivity |]. split; [cbn; lia |].
        intros H. specialize (I4 H). injection I4 as -> ->. reflexivity.
      * cbn [trace fst length].
        split; [reflexivity |]. split; [reflexivity |]. split; [cbn; lia |].
        intros H. rewrite H in Hs. discriminate.
    + unfold ret, bind.
      destruct (on_members_added_activity B rest recipient_id) as [t' r'] eqn:E.
      cbn [trace fst app] in *.
      split; [exact I1 |]. split; [exact I2 |]. split; [exact I3 |].
      intros H. now rewrite (I4 H).
Qed.

Lemma members_added_greets_others_witness :
  on_members_added_activity good_backend ["bot"; "alice"; "bob"] "bot"
  = ([SendActivity (Some GREETING_RESPONSE); SendActivity (Some GREETING_RESPONSE)],
     Return tt).
Proof.
  exact (proj2 (proj2 (proj2 (members_added_greets_others good_backend
                                ["bot"; "alice"; "bob"] "bot")))
           (fun _ => eq_refl)).
Defined.

Lemma pipeline_events_send_nothing (t : list event) :
  forallb is_pipeline_event t = true -> count is_send t = 0.
Proof.
  intros H. apply count_none. intros ev Hin.
  rewrite forallb_forall in H. specialize (H ev Hin).
  destruct ev; try discriminate; reflexivity.
Qed.

Lemma intro_step_sends_once (B : Backend) (ctx : WaterfallStepContext) :
  (forall r, send_activity B r = Return tt) ->
  (result (intro_step B ctx) = Return EndDialog
   /\ count is_send (trace (intro_step B ctx)) = 1)
  \/ (exists e, from_uri B DATABASE_URL = Raise e
                /\ result (intro_step B ctx) = Raise e
                /\ count is_send (trace (intro_step B ctx)) = 0).
Proof.
  intros Hsend. rewrite intro_step_unfold. cbv zeta.
  destruct (from_uri B DATABASE_URL) as [db|e]; [left | right; now exists e].
  destruct (is_greeting (activity_text ctx)).
  - cbn [ret result snd trace fst]. rewrite Hsend. split; reflexivity.
  - pose proof (handle_query_events B (activity_text ctx) db) as Hev.
    apply pipeline_events_send_nothing in Hev.
    destruct (handle_query_total B (activity_text ctx) db) as [r Hr].
    destruct (handle_query B (activity_text ctx) db) as [t o].
    cbn [result snd trace fst] in *. subst o. cbn [result snd trace fst].
    rewrite Hsend. split; [reflexivity |]. now rewrite !count_app, Hev.
Qed.

(** X12.  In a conversation over a transport that accepts every message,
    each inbound message is answered by exactly one message: the bot's
    response, or the apology of the error handler when the turn fails. *)
Theorem one_reply_per_turn (turns : list (Backend * string)) :
  (forall B text, In (B, text) turns -> forall r, send_activity B r = Return tt) ->
  count is_send (fst (run_turns turns [])) = List.length turns.
Proof.
  induction turns as [|[B text] turns IH]; intros H; [reflexivity |].
  assert (IH' : count is_send (fst (run_turns turns [])) = List.length turns).
  { apply IH. intros B' text' Hin. apply (H B' text'). now right. }
  rewrite run_turns_cons, on_message_activity_fresh. cbv zeta.
  set (ctx := {| activity_text := text; step_result := None |}).
  destruct (intro_step_sends_once B ctx (H B text (or_introl eq_refl)))
    as [[Hr Hc] | [e [_ [Hr Hc]]]]; rewrite Hr; cbn [fst length].
  - change (RunStep IntroStep :: trace (intro_step B ctx))%list
      with ([RunStep IntroStep] ++ trace (intro_step B ctx))%list.
    rewrite !count_app, Hc, IH'. reflexivity.
  - change (RunStep IntroStep :: trace (intro_step B ctx))%list
      with ([RunStep IntroStep] ++ trace (intro_step B ctx))%list.
    change (SendActivity (Some TURN_ERROR_MESSAGE) :: fst (run_turns turns []))%list
      with ([SendActivity (Some TURN_ERROR_MESSAGE)] ++ fst (run_turns turns []))%list.
    rewrite !count_app, Hc, IH'. reflexivity.
Qed.

Lemma one_reply_per_turn_witness :
  count is_send
    (fst (run_turns [(good_backend, "hi"); (no_database_backend, "hello");
                     (bad_sql_backend, "Remove the staff table")] []))
  = 3.
Proof.
  apply (one_reply_per_turn [(good_backend, "hi"); (no_database_backend, "hello");
                             (bad_sql_backend, "Remove the staff table")]).
  intros B text [[= <- _] | [[= <- _] | [[= <- _] | []]]] r; reflexivity.
Defined.

(** X13.  When the database connection cannot be created, the turn stops
    before the greeting check: whatever the text, a greeting included, no
    model call is made and the user gets the apology of the error handler
    only. *)
Theorem connection_failure_turn (B : Backend) (text : string) (e : exn) :
  from_uri B DATABASE_URL = Raise e ->
  run_turns [(B, text)] [] =
    ((RunStep IntroStep :: intro_prefix text
        ++ [SendActivity (Some TURN_ERROR_MESSAGE)])%list, []).
Proof.
  intros H. rewrite run_turns_cons, on_message_activity_fresh. cbv zeta.
  rewrite intro_step_unfold. cbv zeta. rewrite H. reflexivity.
Qed.

Lemma connection_failure_turn_witness :
  run_turns [(no_database_backend, "hello")] [] =
    ((RunStep IntroStep :: intro_prefix "hello"
        ++ [SendActivity (Some TURN_ERROR_MESSAGE)])%list, []).
Proof.
  exact (connection_failure_turn no_database_backend "hello"
           (OtherException "connection refused") eq_refl).
Defined.

(** X14.  If the waterfall is resumed behind the intro step, the act step
    answers the inbound text through [handle_query], without a greeting
    check, and hands over to the final step, which ends the dialog: both
    steps run once, the intro step does not run, and the dialog is
    popped. *)
Theorem resumed_dialog_runs_act_and_final
    (B : Backend) (text : string) (rest : dialog_stack) (db : SQLDatabase) :
  from_uri B DATABASE_URL = Return db ->
  (forall r, send_activity B r = Return tt) ->
  exists r,
    result (handle_query B text db) = Return r
    /\ on_message_activity B text (0 :: rest) =
         ((RunStep ActStep
             :: LogInfo ("Act step user question: " ++ text)
             :: LogInfo "Creating database connection"
             :: CreateDatabaseConnection DATABASE_URL
             :: trace (handle_query B text db)
             ++ [SendActivity r; RunStep FinalStep])%list,
          Return rest).
Proof.
  intros Hdb Hsend. destruct (handle_query_total B text db) as [r Hr].
  exists r. split; [exact Hr |].
  unfold on_message_activity, mainDialog. cbn [skipn run_steps run_step_fn].
  unfold act_step, final_step, create_database_connection, log_info, emit, call, bind, ret.
  cbn [step_result activity_text str_of_option]. rewrite Hdb.
  destruct (handle_query B text db) as [t o]. cbn [result snd trace fst] in *.
  subst o. rewrite Hsend. cbn [app]. now rewrite !app_nil_r, <- ?app_assoc.
Qed.

Lemma resumed_dialog_runs_act_and_final_witness :
  count is_llm_call (trace (on_message_activity good_backend "hello" [0])) = 3
  /\ count (runs_step ActStep) (trace (on_message_activity good_backend "hello" [0])) = 1
  /\ count (runs_step FinalStep) (trace (on_message_activity good_backend "hello" [0])) = 1
  /\ In (SendActivity (Some ("There are 12 employees in engineering."
                               ++ String "010"%char "Any follow-up questions?")))
        (trace (on_message_activity good_backend "hello" [0]))
  /\ result (on_message_activity good_backend "hello" [0]) = Return [].
Proof.
  destruct (resumed_dialog_runs_act_and_final good_backend "hello" [] sample_db
              eq_refl (fun _ => eq_refl)) as [r [Hr H]].
  rewrite H. vm_compute in Hr. injection Hr as <-.
  vm_compute. repeat split. do 10 right. now left.
Defined.

(** ** The HTTP endpoint *)

(** X15.  The endpoint reads the body and invokes the adapter only for a
    request whose Content-Type header contains [application/json]: any
    other Content-Type is answered with status 415 and nothing else is
    done, and a request without the header fails with a [KeyError]. *)
Theorem messages_content_type_gate (A : Adapter) (req : Request) :
  (forall content_type,
      get_header "Content-Type" (headers req) = Some content_type ->
      PyStr.contains "application/json" content_type = false ->
      messages A req = ([], Return {| status := 415; body := None |}))
  /\ (get_header "Content-Type" (headers req) = None ->
      messages A req = ([], Raise (key_error "Content-Type")))
  /\ (fst (messages A req) <> [] ->
      exists content_type,
        get_header "Content-Type" (headers req) = Some content_type
        /\ PyStr.occurs "application/json" content_type).
Proof.
  unfold messages. split; [| split].
  - intros ct -> H. now rewrite H.
  - now intros ->.
  - destruct (get_header "Content-Type" (headers req)) as [ct|];
      [| intros H; now elim H].
    destruct (PyStr.contains "application/json" ct) eqn:E;
      [| intros H; now elim H].
    intros _. exists ct. split; [reflexivity |].
    now apply PyStrFacts.contains_spec.
Qed.

Lemma messages_content_type_gate_witness :
  messages sample_adapter form_request
  = ([], Return {| status := 415; body := None |}).
Proof.
  exact (proj1 (messages_content_type_gate sample_adapter form_request)
           "text/plain" eq_refl eq_refl).
Defined.

(** X16.  A response of the endpoint has status 415 and no body, or
    status 201 and no body when the adapter gave nothing back, or the
    status and body the adapter gave.  The adapter is invoked at most once,
    with the Authorization header of the request, or the empty string
    when the request has none. *)
Theorem messages_response (A : Adapter) (req : Request) :
  (forall resp,
      snd (messages A req) = Return resp ->
      (resp = {| status := 415; body := None |} /\ fst (messages A req) = [])
      \/ (resp = {| status := 201; body := None |}
          /\ exists activity auth,
               process_activity A activity auth = Return None
               /\ In (ProcessActivity activity auth) (fst (messages A req)))
      \/ (exists activity auth r,
             process_activity A activity auth = Return (Some r)
             /\ In (ProcessActivity activity auth) (fst (messages A req))
             /\ resp = {| status := invoke_status r; body := Some (invoke_body r) |}))
  /\ List.length (filter is_process_activity (fst (messages A req))) <= 1
  /\ (forall activity auth,
        In (ProcessActivity activity auth) (fst (messages A req)) ->
        auth = match get_header "Authorization" (headers req) with
               | Some v => v
               | None => EmptyString
               end).
Proof.
  unfold messages, has_header.
  destruct (get_header "Content-Type" (headers req)) as [ct|].
  2: { split; [intros resp H; discriminate |]. split; [cbn; lia | intros a h []]. }
  destruct (PyStr.contains "application/json" ct).
  2: { split; [intros resp [= <-]; now left |].
       split; [cbn; lia | intros a h []]. }
  destruct (json req) as [b|e].
  2: { split; [intros resp H; discriminate |].
       split; [cbn; lia | intros a h [H | []]; discriminate]. }
  destruct (deserialize A b) as [act|e].
  2: { split; [intros resp H; discriminate |].
       split; [cbn; lia | intros a h [H | [H | []]]; discriminate]. }
  set (auth := if match get_header "Authorization" (headers req) with
                  | Some _ => true | None => false end
               then match get_header "Authorization" (headers req) with
                    | Some v => v | None => EmptyString end
               else EmptyString).
  assert (Ha : auth = match get_header "Authorization" (headers req) with
                      | Some v => v | None => EmptyString end).
  { unfold auth. now destruct (get_header "Authorization" (headers req)). }
  cbv zeta.
  destruct (process_activity A act auth) as [[r|]|e] eqn:Hp; cbn [fst snd].
  - split.
    + intros resp [= <-]. right. right. exists act, auth, r.
      split; [exact Hp |]. split; [| reflexivity]. right. right. now left.
    + split; [cbn; lia |]. intros a h [H | [H | [H | []]]]; try discriminate.
      injection H as _ <-. exact Ha.
  - split.
    + intros resp [= <-]. right. left. split; [reflexivity |].
      exists act, auth. split; [exact Hp |]. right. right. now left.
    + split; [cbn; lia |]. intros a h [H | [H | [H | []]]]; try discriminate.
      injection H as _ <-. exact Ha.
  - split; [intros resp H; discriminate |].
    split; [cbn; lia |]. intros a h [H | [H | [H | []]]]; try discriminate.
    injection H as _ <-. exact Ha.
Qed.

Lemma messages_response_witness :
  exists activity auth,
    process_activity sample_adapter activity auth = Return None
    /\ In (ProcessActivity activity auth) (fst (messages sample_adapter json_request)).
Proof.
  destruct (proj1 (messages_response sample_adapter json_request)
              {| status := 201; body := None |} eq_refl)
    as [[H _] | [[_ H] | [a [h [r [H _]]]]]].
  - discriminate H.
  - exact H.
  - discriminate H.
Defined.

(** ** What the orchestrator leaves to its caller *)

(** X17.  [handle_query] never writes to the transport, never creates a
    database connection and runs no dialog step: its events are model
    calls, the two database calls and log lines only. *)
Theorem handle_query_sends_nothing (B : Backend) (q : string) (db : SQLDatabase) :
  count is_send (trace (handle_query B q db)) = 0
  /\ count is_connection (trace (handle_query B q db)) = 0
  /\ forall s, count (runs_step s) (trace (handle_query B q db)) = 0.
Proof.
  pose proof (handle_query_events B q db) as H.
  split; [now apply pipeline_events_send_nothing |].
  split; [| intros s; now apply pipeline_events_run_no_step].
  apply count_none. intros ev Hin. rewrite forallb_forall in H.
  specialize (H ev Hin). destruct ev; try discriminate; reflexivity.
Qed.

(** X18.  When the schema introspection fails, no statement is
    synthesized and nothing is executed: after the elaboration call and
    the failed introspection, the failure is logged and the user gets the
    fixed message for the class of the exception. *)
Theorem introspection_fault_reported
    (B : Backend) (q : string) (db : SQLDatabase) (d : string) (e : exn) :
  PyStr.truthy q = true ->
  llm_invoke B (elaborate_prompt q) = Return d ->
  get_columns B TABLE_NAME = Raise e ->
  handle_query B q db =
    ([LlmInvoke (elaborate_prompt q); GetColumns TABLE_NAME; log_for e],
     Return (Some (message_for e))).
Proof.
  intros Hq Hd Hc. rewrite handle_query_nonempty by exact Hq.
  rewrite try_except_on_exception, pipeline_unfold. cbv zeta.
  rewrite Hd, create_sql_query_unfold, Hc. reflexivity.
Qed.

Lemma introspection_fault_reported_witness :
  handle_query no_database_backend "How many employees?" sample_db =
    ([LlmInvoke (elaborate_prompt "How many employees?"); GetColumns TABLE_NAME;
      LogError "Error processing question: connection refused"],
     Return (Some FAILED_MESSAGE)).
Proof.
  exact (introspection_fault_reported no_database_backend "How many employees?"
           sample_db "x" (OtherException "connection refused")
           eq_refl eq_refl eq_refl).
Defined.
